(** * Copilot proxy logs to Elasticsearch: the ingestion pipeline

    A shallow embedding of [utils.py], [log_processor.py], [es_client.py]
    and [main.py].

    Conventions of the model.
    - A Python [str] is a Rocq [string]; a character is a code point
      below 256.
    - A value read from JSON is a [json]; a Python [dict] read from JSON
      is an association list (keys are unique after parsing, lookup takes
      the first binding), the [metadata] dict built by the program is a
      [gmap], the [set] of processed files a [gset].
    - A Python exception is an [exn]; code that can raise returns a
      [result].  A block that appends to a list or fills a dict before it
      may raise is an [Exec]: it returns the state reached together with
      the outcome, so that [try ... except Exception] keeps what was
      built before the exception.
    - [json.loads], the clock, the file system and the Elasticsearch
      server are parameters ([Host], [Sink]).  The source tree does not
      change during one run and the ledger file can be opened.
    - The trace of a run records the ledger appends and the index
      operations (existence check, creation, indexing, bulk write,
      search).  The ping [ESClient()] sends when it is constructed is
      not an event of the trace. *)

From Stdlib Require Import Ascii String ZArith QArith Sorted Permutation.
From stdpp Require Import gmap strings list fin_maps sorting pretty.

Local Open Scope string_scope.
Local Open Scope Z_scope.

(** ** Exceptions and results *)

Inductive exn : Type :=
| TypeError
| KeyError
| IndexError
| AttributeError
| OSError
| JSONDecodeError
| ElasticsearchException.

Inductive result (A : Type) : Type :=
| Ok (a : A)
| Raise (e : exn).
Arguments Ok {A} a.
Arguments Raise {A} e.

Definition rbind {A B : Type} (r : result A) (k : A -> result B) : result B :=
  match r with
  | Ok a => k a
  | Raise e => Raise e
  end.

Declare Scope res_scope.
Delimit Scope res_scope with res.
Notation "x <- r ;; k" := (rbind r (fun x => k))
  (at level 100, r at next level, right associativity) : res_scope.

(** [a and b] where [b] may raise and is evaluated only when [a] holds. *)
Definition rand (a : result bool) (b : result bool) : result bool :=
  rbind a (fun x => if x then b else Ok false).

(** A block of statements over a mutable local [S]. *)
Definition Exec (S A : Type) : Type := S -> S * result A.

Definition eret {S A : Type} (a : A) : Exec S A := fun s => (s, Ok a).
Definition ebind {S A B : Type} (m : Exec S A) (k : A -> Exec S B) : Exec S B :=
  fun s => match m s with
           | (s', Ok a) => k a s'
           | (s', Raise e) => (s', Raise e)
           end.
Definition elift {S A : Type} (r : result A) : Exec S A := fun s => (s, r).
Definition emodify {S : Type} (f : S -> S) : Exec S unit := fun s => (f s, Ok tt).

Declare Scope exec_scope.
Delimit Scope exec_scope with exec.
Notation "x <- m ;; k" := (ebind m (fun x => k))
  (at level 100, m at next level, right associativity) : exec_scope.
Notation "m ;;; k" := (ebind m (fun _ => k))
  (at level 100, right associativity) : exec_scope.

(** [for x in l: body x] *)
Fixpoint efor {S A : Type} (l : list A) (body : A -> Exec S unit) : Exec S unit :=
  match l with
  | [] => eret tt
  | x :: l' => ebind (body x) (fun _ => efor l' body)
  end.

(** [try: body / except Exception: log]: the state built so far stays. *)
Definition try_except_log {S : Type} (body : Exec S unit) (s : S) : S :=
  fst (body s).

(** ** Python strings *)

Definition LF : ascii := "010"%char.
Definition CR : ascii := "013"%char.

(** [str.isspace] on one character (code points below 256). *)
Definition is_space (c : ascii) : bool :=
  let n := nat_of_ascii c in
  ((9 <=? n) && (n <=? 13))%nat || ((28 <=? n) && (n <=? 32))%nat
  || (n =? 133)%nat || (n =? 160)%nat.

Definition str_empty (s : string) : bool :=
  match s with
  | EmptyString => true
  | String _ _ => false
  end.

Fixpoint lstrip (s : string) : string :=
  match s with
  | EmptyString => EmptyString
  | String c s' => if is_space c then lstrip s' else s
  end.

Fixpoint rstrip (s : string) : string :=
  match s with
  | EmptyString => EmptyString
  | String c s' =>
      let r := rstrip s' in
      if is_space c && str_empty r then EmptyString else String c r
  end.

(** [s.strip()] *)
Definition py_strip (s : string) : string := rstrip (lstrip s).

(** [s.split(sep)] for a one-character separator. *)
Fixpoint py_split (sep : ascii) (s : string) : list string :=
  match s with
  | EmptyString => [EmptyString]
  | String c s' =>
      if Ascii.eqb c sep then EmptyString :: py_split sep s'
      else match py_split sep s' with
           | t :: ts => String c t :: ts
           | [] => [String c EmptyString]
           end
  end.

Fixpoint startswith (p s : string) : bool :=
  match p, s with
  | EmptyString, _ => true
  | String a p', String b s' => Ascii.eqb a b && startswith p' s'
  | String _ _, EmptyString => false
  end.

(** [s.endswith(suffix)] *)
Fixpoint endswith (suffix s : string) : bool :=
  String.eqb s suffix
  || match s with
     | EmptyString => false
     | String _ s' => endswith suffix s'
     end.

(** [needle in s] for two strings. *)
Fixpoint str_contains (needle s : string) : bool :=
  startswith needle s
  || match s with
     | EmptyString => false
     | String _ s' => str_contains needle s'
     end.

(** ** os.path (posixpath) *)

(** The text after the last slash. *)
Fixpoint basename (p : string) : string :=
  match p with
  | EmptyString => EmptyString
  | String c p' =>
      if str_contains "/" p' then basename p'
      else if Ascii.eqb c "/" then p' else p
  end.

(** The text up to and including the last slash. *)
Fixpoint split_head (p : string) : string :=
  match p with
  | EmptyString => EmptyString
  | String c p' =>
      if str_contains "/" p' then String c (split_head p')
      else if Ascii.eqb c "/" then String c EmptyString else EmptyString
  end.

Fixpoint all_slashes (s : string) : bool :=
  match s with
  | EmptyString => true
  | String c s' => Ascii.eqb c "/" && all_slashes s'
  end.

(** [s.rstrip('/')] *)
Fixpoint rstrip_slash (s : string) : string :=
  match s with
  | EmptyString => EmptyString
  | String c s' =>
      let r := rstrip_slash s' in
      if Ascii.eqb c "/" && str_empty r then EmptyString else String c r
  end.

Definition dirname (p : string) : string :=
  let head := split_head p in
  if all_slashes head then head else rstrip_slash head.

(** [os.path.join(a, b)] *)
Definition path_join (a b : string) : string :=
  if startswith "/" b then b
  else if str_empty a || endswith "/" a then a ++ b
  else a ++ "/" ++ b.

(** ** utils.py: the filename decoder *)

(** [parts[i]] *)
Definition list_index {A : Type} (l : list A) (i : nat) : result A :=
  match l !! i with
  | Some x => Ok x
  | None => Raise IndexError
  end.

Definition try_or {A : Type} (body : result A) (fallback : A) : A :=
  match body with
  | Ok a => a
  | Raise _ => fallback
  end.

Definition extract_machine_id_body (filename : string) : result string :=
  let parts := py_split "_" filename in
  if (1 <? length parts)%nat then list_index parts 1 else Ok "unknown".

Definition extract_machine_id (filename : string) : string :=
  try_or (extract_machine_id_body filename) "unknown".

Definition extract_ip_address_body (filename : string) : result string :=
  let parts := py_split "_" filename in
  if (2 <? length parts)%nat then list_index parts 2 else Ok "unknown".

Definition extract_ip_address (filename : string) : string :=
  try_or (extract_ip_address_body filename) "unknown".

Definition extract_editor_version_body (filename : string) : result string :=
  let parts := py_split "_" filename in
  if (3 <? length parts)%nat then list_index parts 3 else Ok "unknown".

Definition extract_editor_version (filename : string) : string :=
  try_or (extract_editor_version_body filename) "unknown".



(** ** Values read from JSON *)

#[local] Set Warnings "-register-all".

Inductive json : Type :=
| JNull
| JBool (b : bool)
| JInt (z : Z)
| JFloat (q : Q)
| JStr (s : string)
| JList (l : list json)
| JDict (d : list (string * json)).

(** [d.get(key)] on the association list of a dict. *)
Fixpoint dict_lookup (key : string) (d : list (string * json)) : option json :=
  match d with
  | [] => None
  | (k, v) :: d' => if String.eqb k key then Some v else dict_lookup key d'
  end.

(** [key in d] on the association list of a dict. *)
Definition dict_has (key : string) (d : list (string * json)) : bool :=
  match dict_lookup key d with
  | Some _ => true
  | None => false
  end.

Definition is_str_value (key : string) (v : json) : bool :=
  match v with
  | JStr s => String.eqb s key
  | _ => false
  end.

(** [key in v] for a string [key]. *)
Definition py_in (key : string) (v : json) : result bool :=
  match v with
  | JDict d => Ok (dict_has key d)
  | JList l => Ok (existsb (is_str_value key) l)
  | JStr s => Ok (str_contains key s)
  | _ => Raise TypeError
  end.

(** [v[key]] for a string [key]. *)
Definition py_getitem (v : json) (key : string) : result json :=
  match v with
  | JDict d =>
      match dict_lookup key d with
      | Some x => Ok x
      | None => Raise KeyError
      end
  | _ => Raise TypeError
  end.

(** [v.get(key, default)] *)
Definition py_get (v : json) (key : string) (default : json) : result json :=
  match v with
  | JDict d =>
      match dict_lookup key d with
      | Some x => Ok x
      | None => Ok default
      end
  | _ => Raise AttributeError
  end.

Fixpoint chars (s : string) : list json :=
  match s with
  | EmptyString => []
  | String c s' => JStr (String c EmptyString) :: chars s'
  end.

(** The items [for x in v] goes through. *)
Definition py_iter (v : json) : result (list json) :=
  match v with
  | JList l => Ok l
  | JDict d => Ok (map (fun kv => JStr (fst kv)) d)
  | JStr s => Ok (chars s)
  | _ => Raise TypeError
  end.

(** [bool(v)] *)
Definition truthy (v : json) : bool :=
  match v with
  | JNull => false
  | JBool b => b
  | JInt z => negb (z =? 0)
  | JFloat q => negb (Qeq_bool q 0)
  | JStr s => negb (str_empty s)
  | JList l => match l with [] => false | _ => true end
  | JDict d => match d with [] => false | _ => true end
  end.

Definition is_dict (v : json) : bool :=
  match v with
  | JDict _ => true
  | _ => false
  end.

(** [acc += v] for a string accumulator. *)
Definition str_add (acc : string) (v : json) : result string :=
  match v with
  | JStr s => Ok (acc ++ s)
  | _ => Raise TypeError
  end.

(** ** log_processor.py: conversation extraction *)

(** One entry of the [conversation] list.  A message copied from the
    request keeps whatever JSON values its [role] and [content] hold. *)
Record Turn : Type := mkTurn {
  role : json;
  content : json;
  timestamp : json
}.

Definition assistant_turn (text : json) (ts : json) : Turn :=
  mkTurn (JStr "assistant") text ts.

(** [conversation.append(t)] *)
Definition append_turn (t : Turn) : Exec (list Turn) unit :=
  emodify (fun conversation => (conversation ++ [t])%list).

(** ['outer' in log_data and 'content' in log_data['outer']] *)
Definition has_content (outer : string) (log_data : json) : result bool :=
  rand (py_in outer log_data)
       (rbind (py_getitem log_data outer) (py_in "content")).

(** The body of [for choice in chunk['choices']] on the accumulator. *)
Definition add_choice (acc : string) (choice : json) : result string :=
  if is_dict choice then
    (has_delta <- py_in "delta" choice ;;
     if has_delta then
       delta <- py_getitem choice "delta" ;;
       if is_dict delta then
         (has <- rand (py_in "content" delta)
                      (rbind (py_getitem delta "content") (fun c => Ok (truthy c))) ;;
          if has then
            c <- py_getitem delta "content" ;;
            str_add acc c
          else Ok acc)
       else Ok acc
     else Ok acc)%res
  else Ok acc.

Fixpoint add_choices (acc : string) (choices : list json) : result string :=
  match choices with
  | [] => Ok acc
  | choice :: rest => rbind (add_choice acc choice) (fun acc' => add_choices acc' rest)
  end.

(** The body of [for chunk in response_content] on the accumulator. *)
Definition add_chunk (acc : string) (chunk : json) : result string :=
  if is_dict chunk then
    (has <- rand (py_in "choices" chunk)
                 (rbind (py_getitem chunk "choices") (fun c => Ok (truthy c))) ;;
     if has then
       cs <- py_getitem chunk "choices" ;;
       choices <- py_iter cs ;;
       add_choices acc choices
     else Ok acc)%res
  else Ok acc.

Fixpoint add_chunks (acc : string) (chunks : list json) : result string :=
  match chunks with
  | [] => Ok acc
  | chunk :: rest => rbind (add_chunk acc chunk) (fun acc' => add_chunks acc' rest)
  end.

Section Extraction.

(** [json.loads]: [None] stands for [json.JSONDecodeError]. *)
Variable json_loads : string -> option json.

(** The body of [for msg in request_content['messages']]. *)
Definition add_message (log_data : json) (msg : json) : Exec (list Turn) unit :=
  (ok <- elift (rand (py_in "role" msg) (py_in "content" msg)) ;;
   if ok then
     r <- elift (py_getitem msg "role") ;;
     c <- elift (py_getitem msg "content") ;;
     ts <- elift (py_get log_data "timestamp" JNull) ;;
     append_turn (mkTurn r c ts)
   else eret tt)%exec.

(** Lines 62-80: the turns of [request.content]. *)
Definition request_block (log_data : json) : Exec (list Turn) unit :=
  (present <- elift (has_content "request" log_data) ;;
   if present then
     request <- elift (py_getitem log_data "request") ;;
     raw <- elift (py_getitem request "content") ;;
     let request_content :=
       match raw with
       | JStr text =>
           match json_loads text with
           | Some parsed => parsed
           | None => raw
           end
       | _ => raw
       end in
     has_messages <- elift (if is_dict request_content
                            then py_in "messages" request_content
                            else Ok false) ;;
     if has_messages then
       messages <- elift (py_getitem request_content "messages") ;;
       items <- elift (py_iter messages) ;;
       efor items (add_message log_data)
     else eret tt
   else eret tt)%exec.

(** Lines 118-129: a dict with direct [choices]. *)
Definition direct_choice (log_data : json) (response_content : json)
  : Exec (list Turn) unit :=
  (has_choices <- elift (py_in "choices" response_content) ;;
   if has_choices then
     choices <- elift (py_getitem response_content "choices") ;;
     match choices with
     | JList (choice :: _) =>
         has_message <- elift (if is_dict choice then py_in "message" choice
                               else Ok false) ;;
         if has_message then
           message <- elift (py_getitem choice "message") ;;
           has_text <- elift (if is_dict message then py_in "content" message
                              else Ok false) ;;
           if has_text then
             text <- elift (py_getitem message "content") ;;
             ts <- elift (py_get log_data "timestamp" JNull) ;;
             append_turn (assistant_turn text ts)
           else eret tt
         else eret tt
     | _ => eret tt
     end
   else eret tt)%exec.

(** Lines 83-129: the turn of [response.content]. *)
Definition response_block (log_data : json) : Exec (list Turn) unit :=
  (present <- elift (has_content "response" log_data) ;;
   if present then
     response <- elift (py_getitem log_data "response") ;;
     raw <- elift (py_getitem response "content") ;;
     response_content <-
       match raw with
       | JStr text =>
           match json_loads text with
           | Some parsed => eret parsed
           | None =>
               ts <- elift (py_get log_data "timestamp" JNull) ;;
               append_turn (assistant_turn raw ts) ;;;
               eret JNull
           end
       | _ => eret raw
       end ;;
     match response_content with
     | JList chunks =>
         assistant_message <- elift (add_chunks "" chunks) ;;
         if negb (str_empty assistant_message) then
           ts <- elift (py_get log_data "timestamp" JNull) ;;
           append_turn (assistant_turn (JStr assistant_message) ts)
         else eret tt
     | JDict _ => direct_choice log_data response_content
     | _ => eret tt
     end
   else eret tt)%exec.

Definition extract_conversation_body (log_data : json) : Exec (list Turn) unit :=
  (request_block log_data ;;; response_block log_data)%exec.

Definition extract_conversation (log_data : json) : list Turn :=
  try_except_log (extract_conversation_body log_data) [].

End Extraction.

(** ** The environment of a run *)

(** What the program reads from its host during one run. *)
Record Host : Type := mkHost {
  (** [json.loads] / [json.load]; [None] is [json.JSONDecodeError] *)
  host_json_loads : string -> option json;
  (** [datetime.now().isoformat()] *)
  host_now : string;
  (** [os.path.exists] *)
  os_path_exists : string -> bool;
  (** [os.walk(d)]: the [(root, files)] of every directory under [d] *)
  os_walk : string -> list (string * list string);
  (** [os.path.getmtime]; [None] is [OSError] *)
  os_path_getmtime : string -> option Z;
  (** the text of a file opened for reading; [None] is an exception *)
  open_read : string -> option string;
  (** [config.LOG_SOURCE_DIRS] *)
  LOG_SOURCE_DIRS : list string
}.

(** ** config.py *)

Definition ES_INDEX_PREFIX : string := "copilot-chat-logs".
Definition MAX_FILES_PER_BATCH : Z := 100.

Definition get_user_id_from_path (log_dir : string) : string :=
  basename (dirname log_dir).

(** ** log_processor.py: metadata and documents *)

(** [metadata[key] = v] *)
Definition set_item (key : string) (v : json) : Exec (gmap string json) unit :=
  emodify (fun metadata => <[key := v]> metadata).

Definition extract_metadata_body (log_data : json) (filename : string)
  : Exec (gmap string json) unit :=
  (has_time <- elift (py_in "proxy-time-consumed" log_data) ;;
   (if has_time then
      v <- elift (py_getitem log_data "proxy-time-consumed") ;;
      set_item "proxy_time_consumed" v
    else eret tt) ;;;
   set_item "ip_address" (JStr (extract_ip_address (basename filename))) ;;;
   set_item "machine_id" (JStr (extract_machine_id (basename filename))) ;;;
   set_item "editor_version" (JStr (extract_editor_version (basename filename))) ;;;
   has_model <- elift (rand (has_content "request" log_data)
                            (request <- py_getitem log_data "request" ;;
                             c <- py_getitem request "content" ;;
                             py_in "model" c)%res) ;;
   if has_model then
     request <- elift (py_getitem log_data "request") ;;
     c <- elift (py_getitem request "content") ;;
     v <- elift (py_getitem c "model") ;;
     set_item "model" v
   else eret tt)%exec.

Definition extract_metadata (log_data : json) (filename : string) : gmap string json :=
  try_except_log (extract_metadata_body log_data filename) ∅.

(** The unit of work handed from discovery to extraction. *)
Record FileTask : Type := mkFileTask {
  path : string;
  user_id : string
}.

(** The document sent to the index. *)
Record Document : Type := mkDocument {
  doc_timestamp : json;
  file_name : string;
  doc_user_id : string;
  conversation : list Turn;
  metadata : gmap string json
}.

(** [utils.load_json_file]: both handlers log and re-raise. *)
Definition load_json_file (host : Host) (file_path : string) : result json :=
  match open_read host file_path with
  | None => Raise OSError
  | Some text =>
      match host_json_loads host text with
      | Some v => Ok v
      | None => Raise JSONDecodeError
      end
  end.

Definition process_file_body (host : Host) (file_info : FileTask) : result Document :=
  (let file_path := path file_info in
   let user := user_id file_info in
   log_data <- load_json_file host file_path ;;
   let name := basename file_path in
   ts <- py_get log_data "timestamp" (JStr (host_now host)) ;;
   Ok (mkDocument ts name user
         (extract_conversation (host_json_loads host) log_data)
         (extract_metadata log_data name)))%res.

(** [process_file]: [None] after any exception. *)
Definition process_file (host : Host) (file_info : FileTask) : option Document :=
  match process_file_body host file_info with
  | Ok document => Some document
  | Raise _ => None
  end.

(** ** utils.py: the ledger of processed files *)

(** Text mode with universal newlines: CR LF and a lone CR are read as LF. *)
Fixpoint universal_newlines (s : string) : string :=
  match s with
  | EmptyString => EmptyString
  | String c s' =>
      if Ascii.eqb c CR then
        match s' with
        | String d _ =>
            if Ascii.eqb d LF then universal_newlines s'
            else String LF (universal_newlines s')
        | EmptyString => String LF EmptyString
        end
      else String c (universal_newlines s')
  end.

(** The lines of a text, each with its line feed when it has one. *)
Fixpoint split_lines (s : string) : list string :=
  match s with
  | EmptyString => []
  | String c s' =>
      if Ascii.eqb c LF then String LF EmptyString :: split_lines s'
      else match split_lines s' with
           | [] => [String c EmptyString]
           | line :: rest => String c line :: rest
           end
  end.

(** [f.readlines()] on a file opened with [open(name, 'r')]. *)
Definition readlines (text : string) : list string :=
  split_lines (universal_newlines text).

(** [get_processed_files]: [None] is a ledger file that does not exist. *)
Definition get_processed_files (ledger : option string) : gset string :=
  match ledger with
  | None => ∅
  | Some text => list_to_set (map py_strip (readlines text))
  end.

(** What can be observed of a run, in the order it happens. *)
Inductive event : Type :=
| LedgerAppend (file_path : string)
| IndicesExists (index : string)
| IndicesCreate (index : string)
| IndexDoc (index : string) (doc : Document)
| Bulk (actions : list (string * Document))
| Search (index : string) (user : string) (size : Z).

(** The state a run changes: the ledger file and the trace of events. *)
Record State : Type := mkState {
  ledger_file : option string;
  events : list event
}.

Definition record_event (e : event) : Exec State unit :=
  emodify (fun st => mkState (ledger_file st) (events st ++ [e])%list).

(** [open(PROCESSED_FILES_LOG, 'a')] then [f.write(file_path + "\n")]. *)
Definition append_line (ledger : option string) (file_path : string) : option string :=
  Some (default EmptyString ledger ++ file_path ++ String LF EmptyString).

Definition mark_file_as_processed (file_path : string) : Exec State unit :=
  emodify (fun st => mkState (append_line (ledger_file st) file_path)
                             (events st ++ [LedgerAppend file_path])%list).

(** ** log_processor.py: discovery *)

Record LogProcessor : Type := mkLogProcessor {
  source_dirs : list string;
  processed_files : gset string
}.

(** [LogProcessor.__init__]: [source_dirs or config.LOG_SOURCE_DIRS], and
    the ledger as it is read at this moment. *)
Definition LogProcessor_init (arg : option (list string)) (host : Host) (st : State)
  : LogProcessor :=
  mkLogProcessor
    (match arg with
     | Some (d :: ds) => d :: ds
     | _ => LOG_SOURCE_DIRS host
     end)
    (get_processed_files (ledger_file st)).

(** The [.json] files of one walked directory that are not in the set. *)
Definition unprocessed_in (self : LogProcessor) (user : string)
    (entry : string * list string) : list FileTask :=
  flat_map (fun file =>
              if endswith ".json" file then
                let full_path := path_join (fst entry) file in
                if bool_decide (full_path ∈ processed_files self) then []
                else [mkFileTask full_path user]
              else [])
           (snd entry).

(** Lines 26-44: the list built by the three nested loops. *)
Definition candidates (self : LogProcessor) (host : Host) : list FileTask :=
  flat_map (fun source_dir =>
              if os_path_exists host source_dir then
                flat_map (unprocessed_in self (get_user_id_from_path source_dir))
                         (os_walk host source_dir)
              else [])
           (source_dirs self).

(** The sort keys, computed for every element before anything moves. *)
Fixpoint with_mtime (host : Host) (l : list FileTask) : result (list (Z * FileTask)) :=
  match l with
  | [] => Ok []
  | f :: l' =>
      match os_path_getmtime host (path f) with
      | None => Raise OSError
      | Some t => rbind (with_mtime host l') (fun rest => Ok ((t, f) :: rest))
      end
  end.

Fixpoint insert_by_key {A : Type} (x : Z * A) (l : list (Z * A)) : list (Z * A) :=
  match l with
  | [] => [x]
  | y :: l' => if fst x <=? fst y then x :: y :: l' else y :: insert_by_key x l'
  end.

(** [list.sort(key=...)]: ascending and stable. *)
Definition sort_by_key {A : Type} (l : list (Z * A)) : list (Z * A) :=
  foldr insert_by_key [] l.

(** [l[:max_files]] when [max_files is not None and max_files > 0]. *)
Definition limit {A : Type} (max_files : option Z) (l : list A) : list A :=
  match max_files with
  | Some n => if 0 <? n then take (Z.to_nat n) l else l
  | None => l
  end.

Definition get_unprocessed_files (self : LogProcessor) (max_files : option Z)
    (host : Host) : result (list FileTask) :=
  rbind (with_mtime host (candidates self host))
        (fun keyed => Ok (limit max_files (map snd (sort_by_key keyed)))).

(** Lines 204-223: the loop over the files to process. *)
Fixpoint process_each (host : Host) (files : list FileTask) (documents : list Document)
  : Exec State (list Document) :=
  match files with
  | [] => eret documents
  | file_info :: rest =>
      match process_file host file_info with
      | Some document =>
          (mark_file_as_processed (path file_info) ;;;
           process_each host rest (documents ++ [document])%list)%exec
      | None => process_each host rest documents
      end
  end.

Definition process_files (self : LogProcessor) (max_files : option Z) (host : Host)
  : Exec State (list Document) :=
  (files_to_process <- elift (get_unprocessed_files self max_files host) ;;
   match files_to_process with
   | [] => eret []
   | _ => process_each host files_to_process []
   end)%exec.

(** ** es_client.py *)

(** The answers of the Elasticsearch server.  A [Raise] other than
    [ElasticsearchException] stands for any error the client does not
    catch, such as [self.es] left [None] by a failed [connect]. *)
Record Sink : Type := mkSink {
  es_indices_exists : string -> result bool;
  es_indices_create : string -> result unit;
  es_index : string -> Document -> result string;
  es_bulk : list (string * Document) -> result (Z * Z);
  es_search : string -> string -> Z -> result (list Document)
}.

(** [try: ... except ElasticsearchException: return fallback] *)
Definition except_es {S A : Type} (r : result A) (fallback : A) : Exec S A :=
  match r with
  | Ok a => eret a
  | Raise ElasticsearchException => eret fallback
  | Raise e => elift (Raise e)
  end.

Definition create_index_if_not_exists (sink : Sink) (index_name : string)
  : Exec State bool :=
  (record_event (IndicesExists index_name) ;;;
   match es_indices_exists sink index_name with
   | Ok false =>
       record_event (IndicesCreate index_name) ;;;
       except_es (rbind (es_indices_create sink index_name) (fun _ => Ok true)) false
   | answer => except_es (rbind answer (fun _ => Ok true)) false
   end)%exec.

(** The docstring promises a date-based suffix; the body returns the prefix. *)
Definition get_index_name : string := ES_INDEX_PREFIX.

Definition index_document (sink : Sink) (document : Document)
  : Exec State (option string) :=
  (let index_name := get_index_name in
   created <- create_index_if_not_exists sink index_name ;;
   if created then
     record_event (IndexDoc index_name document) ;;;
     except_es (rbind (es_index sink index_name document) (fun id => Ok (Some id))) None
   else eret None)%exec.

Definition bulk_index (sink : Sink) (documents : list Document) : Exec State Z :=
  match documents with
  | [] => eret 0
  | _ =>
      (let index_name := get_index_name in
       created <- create_index_if_not_exists sink index_name ;;
       if created then
         let actions := map (fun doc => (index_name, doc)) documents in
         record_event (Bulk actions) ;;;
         except_es (rbind (es_bulk sink actions) (fun counts => Ok (fst counts))) 0
       else eret 0)%exec
  end.

(** The index expression [search_by_user] sends: [f"{ES_INDEX_PREFIX}-*"]. *)
Definition search_index : string := ES_INDEX_PREFIX ++ "-*".

Definition search_by_user (sink : Sink) (user : string) (size : Z)
  : Exec State (list Document) :=
  (let index_name := get_index_name in
   record_event (Search search_index user size) ;;;
   except_es (es_search sink search_index user size) [])%exec.

(** Modelled from the Elasticsearch index-name syntax: in an index
    expression [*] stands for any run of characters, every other
    character for itself. *)
Fixpoint wildcard_match (pattern name : string) : bool :=
  match pattern with
  | EmptyString => str_empty name
  | String c pattern' =>
      if Ascii.eqb c "*" then
        (fix skip (n : string) : bool :=
           wildcard_match pattern' n
           || match n with
              | EmptyString => false
              | String _ n' => skip n'
              end) name
      else
        match name with
        | EmptyString => false
        | String d name' => Ascii.eqb c d && wildcard_match pattern' name'
        end
  end.

(** The index an event addresses, if it addresses one besides the bulk. *)
Definition event_indices (e : event) : list string :=
  match e with
  | LedgerAppend _ => []
  | IndicesExists i => [i]
  | IndicesCreate i => [i]
  | IndexDoc i _ => [i]
  | Bulk actions => map fst actions
  | Search i _ _ => [i]
  end.

(** ** main.py *)

(** [ESClient()] (line 30) connects and pings; it neither touches the
    ledger nor issues an index operation, and leaves no event. *)
Definition process_logs_body (host : Host) (sink : Sink) : Exec State (option Z) :=
  (st <- (fun st => (st, Ok st)) ;;
   let processor := LogProcessor_init None host st in
   documents <- process_files processor (Some MAX_FILES_PER_BATCH) host ;;
   match documents with
   | [] => eret None
   | _ =>
       success_count <- bulk_index sink documents ;;
       eret (Some success_count)
   end)%exec.

(** [process_logs]: the state after the run; [except Exception] logs. *)
Definition process_logs (host : Host) (sink : Sink) (st : State) : State :=
  fst (process_logs_body host sink st).

(** ** Sample environments *)

Definition no_parser : string -> option json := fun _ => None.

(** A parser that knows three texts. *)
Definition demo_loads (text : string) : option json :=
  if String.eqb text "{}" then Some (JDict [])
  else if String.eqb text "[]" then Some (JList [])
  else if String.eqb text "7" then Some (JInt 7)
  else None.

Definition demo_dir : string := "/logs/alice/chat-panel".

(** One user directory with a good file, an unparsable one, a file whose
    JSON is not an object, and a file that is not a log. *)
Definition demo_host : Host :=
  mkHost demo_loads "2025-03-26T06:16:09"
    (fun d => String.eqb d demo_dir)
    (fun d => if String.eqb d demo_dir
              then [(demo_dir, ["a.json"; "b.json"; "c.json"; "notes.txt"])]
              else [])
    (fun p => if String.eqb p "/logs/alice/chat-panel/a.json" then Some 30
              else if String.eqb p "/logs/alice/chat-panel/b.json" then Some 10
              else if String.eqb p "/logs/alice/chat-panel/c.json" then Some 20
              else None)
    (fun p => if String.eqb p "/logs/alice/chat-panel/a.json" then Some "{}"
              else if String.eqb p "/logs/alice/chat-panel/b.json" then Some "{oops"
              else if String.eqb p "/logs/alice/chat-panel/c.json" then Some "[]"
              else None)
    [demo_dir].

(** A server that accepts everything. *)
Definition good_sink : Sink :=
  mkSink (fun _ => Ok true) (fun _ => Ok tt) (fun _ _ => Ok "id")
         (fun actions => Ok (Z.of_nat (length actions), 0))
         (fun _ _ _ => Ok []).

(** A server that is down. *)
Definition dead_sink : Sink :=
  mkSink (fun _ => Raise ElasticsearchException)
         (fun _ => Raise ElasticsearchException)
         (fun _ _ => Raise ElasticsearchException)
         (fun _ => Raise ElasticsearchException)
         (fun _ _ _ => Raise ElasticsearchException).

(** A server whose index exists and whose bulk write fails as a whole. *)
Definition failing_bulk_sink : Sink :=
  mkSink (fun _ => Ok true) (fun _ => Ok tt) (fun _ _ => Ok "id")
         (fun _ => Raise ElasticsearchException)
         (fun _ _ _ => Ok []).

Definition fresh_state : State := mkState None [].


(** A file name that holds a line feed. *)
Definition odd_name : string := String "x" (String LF "y.json").

(** The same directory with that one file. *)
Definition odd_host : Host :=
  mkHost demo_loads "2025-03-26T06:16:09"
    (fun d => String.eqb d demo_dir)
    (fun d => if String.eqb d demo_dir then [(demo_dir, [odd_name])] else [])
    (fun _ => Some 10)
    (fun _ => Some "{}")
    [demo_dir].



(** Sample records.  A response sent as streaming chunks, as a direct
    choice and as plain text; a request whose [messages] is [null], and
    a well-formed one. *)
Definition chunk (text : string) : json :=
  JDict [("choices", JList [JDict [("delta", JDict [("content", JStr text)])]])].

Definition streamed_response : json :=
  JDict [("content", JList [chunk "Hel"; chunk "lo"])].

Definition direct_response : json :=
  JDict [("content",
          JDict [("choices",
                  JList [JDict [("message", JDict [("content", JStr "Hi")])]])])].

Definition plain_response : json :=
  JDict [("content", JStr "plain text")].

Definition null_messages_request : json :=
  JDict [("content", JDict [("messages", JNull)])].

Definition user_request : json :=
  JDict [("content",
          JDict [("messages",
                  JList [JDict [("role", JStr "user"); ("content", JStr "Hello?")]])])].

Definition record_of (request response : json) : json :=
  JDict [("timestamp", JStr "t0"); ("request", request); ("response", response)].

(** ** Predicates used in the statements *)

(** The three filename keys of a metadata map. *)
Definition has_filename_keys (filename : string) (m : gmap string json) : Prop :=
  m !! "ip_address" = Some (JStr (extract_ip_address (basename filename)))
  ∧ m !! "machine_id" = Some (JStr (extract_machine_id (basename filename)))
  ∧ m !! "editor_version" = Some (JStr (extract_editor_version (basename filename))).

(** Every index named by the events of [evs] is [name]. *)
Definition addresses_only (name : string) (evs : list event) : Prop :=
  Forall (fun e => Forall (eq name) (event_indices e)) evs.

(** What a call of the sink adapter leaves in the state: the ledger is
    not touched and [new] is appended to the trace. *)
Definition extends_trace (st st' : State) (new : list event) : Prop :=
  ledger_file st' = ledger_file st ∧ events st' = (events st ++ new)%list.

Definition is_bulk (e : event) : bool :=
  match e with
  | Bulk _ => true
  | _ => false
  end.

Definition is_ledger_append (e : event) : bool :=
  match e with
  | LedgerAppend _ => true
  | _ => false
  end.

(** The paths [process_each] appends to the ledger for [files]: those of
    the files [process_file] turns into a document, in order. *)
Definition marked (host : Host) (files : list FileTask) : list string :=
  omap (fun f => match process_file host f with
                 | Some _ => Some (path f)
                 | None => None
                 end) files.

(** The ledger file after [mark_file_as_processed] on each path in turn. *)
Definition append_lines (ledger : option string) (paths : list string) : option string :=
  foldl append_line ledger paths.

(** The files one call of [process_logs] works on ([[]] when discovery
    raises). *)
Definition run_files (host : Host) (st : State) : list FileTask :=
  match get_unprocessed_files (LogProcessor_init None host st)
          (Some MAX_FILES_PER_BATCH) host with
  | Ok files => files
  | Raise _ => []
  end.

(** The order C2 states: in a trace, every ledger append comes after
    the bulk write. *)
Definition appends_after_bulk (trace : list event) : Prop :=
  ∀ (i j : nat) (p : string) (actions : list (string * Document)),
    trace !! i = Some (LedgerAppend p) →
    trace !! j = Some (Bulk actions) →
    (j < i)%nat.

(** The order of the code: every ledger append comes before the bulk
    write. *)
Definition appends_before_bulk (trace : list event) : Prop :=
  ∀ (i j : nat) (p : string) (actions : list (string * Document)),
    trace !! i = Some (LedgerAppend p) →
    trace !! j = Some (Bulk actions) →
    (i < j)%nat.

(** The last character of a string. *)
Fixpoint last_char (s : string) : option ascii :=
  match s with
  | EmptyString => None
  | String c s' =>
      match last_char s' with
      | None => Some c
      | Some d => Some d
      end
  end.

Fixpoint has_char (c : ascii) (s : string) : bool :=
  match s with
  | EmptyString => false
  | String d s' => Ascii.eqb d c || has_char c s'
  end.

(** A ledger file that is absent, empty, or ends with a line feed: every
    ledger written by [mark_file_as_processed] alone is of this kind. *)
Definition line_terminated (ledger : option string) : bool :=
  match ledger with
  | None => true
  | Some text =>
      match last_char text with
      | None => true
      | Some c => Ascii.eqb c LF
      end
  end.

(** A path that one line of the ledger can hold and [strip] gives back:
    no line break inside, no white space at either end. *)
Definition clean_path (p : string) : bool :=
  negb (has_char LF p) && negb (has_char CR p)
  && match p with
     | EmptyString => true
     | String c _ => negb (is_space c)
     end
  && match last_char p with
     | None => true
     | Some c => negb (is_space c)
     end.

(** [p] was recorded: the ledger is a line-terminated ledger to which
    [p] was appended, and after it the paths [after]. *)
Definition recorded_in (ledger : option string) (p : string) : Prop :=
  ∃ (before : option string) (after : list string),
    line_terminated before = true
    ∧ ledger = append_lines (append_line before p) after.

(** Discovery by a processor constructed on [st] does not select [p]. *)
Definition never_selected (host : Host) (st : State) (p : string) : Prop :=
  ∀ (dirs : option (list string)) (max_files : option Z) (files : list FileTask),
    get_unprocessed_files (LogProcessor_init dirs host st) max_files host = Ok files →
    p ∉ map path files.

(** Ascending by key. *)
Definition key_le {A : Type} (x y : Z * A) : Prop := fst x <= fst y.



(** The files of the walked directories that end in [.json], in the
    order of the walk, whether processed or not. *)
Definition walked_json (host : Host) (dirs : list string) : list FileTask :=
  flat_map (fun source_dir =>
              if os_path_exists host source_dir then
                flat_map (fun entry =>
                            flat_map (fun file =>
                                        if endswith ".json" file
                                        then [mkFileTask (path_join (fst entry) file)
                                                (get_user_id_from_path source_dir)]
                                        else [])
                                     (snd entry))
                         (os_walk host source_dir)
              else [])
           dirs.

(** A block that only appends to the conversation and never reads it. *)
Definition framed {A : Type} (m : Exec (list Turn) A) : Prop :=
  ∀ s : list Turn, m s = ((s ++ fst (m []))%list, snd (m [])).

(** The value of [response.content] in a record. *)
Definition response_content (log_data : json) : option json :=
  match log_data with
  | JDict d =>
      match dict_lookup "response" d with
      | Some (JDict r) => dict_lookup "content" r
      | _ => None
      end
  | _ => None
  end.

(** The record's top-level timestamp as [log_data.get('timestamp')]
    gives it for an object. *)
Definition record_timestamp (log_data : json) : json :=
  match log_data with
  | JDict d => default JNull (dict_lookup "timestamp" d)
  | _ => JNull
  end.

(** ** More of the program *)

(** [s.replace(old, new)] for two one-character strings. *)
Fixpoint replace_char (old new : ascii) (s : string) : string :=
  match s with
  | EmptyString => EmptyString
  | String c s' =>
      String (if Ascii.eqb c old then new else c) (replace_char old new s')
  end.

(** utils.py, [extract_timestamp_from_filename]: the text before the
    first underscore, hyphens turned into colons and [T] into a space. *)
Definition extract_timestamp_from_filename_body (filename : string) : result string :=
  (timestamp_part <- list_index (py_split "_" filename) 0 ;;
   let timestamp_iso := replace_char "T" " " (replace_char "-" ":" timestamp_part) in
   Ok timestamp_iso)%res.

Definition extract_timestamp_from_filename (now : string) (filename : string) : string :=
  try_or (extract_timestamp_from_filename_body filename) now.

(** config.py *)
Definition PROCESS_INTERVAL : Z := 3000.

(** main.py, [run_scheduled]: [config.PROCESS_INTERVAL // 60 or 1]. *)
Definition interval_minutes (process_interval : Z) : Z :=
  let minutes := process_interval / 60 in
  if minutes =? 0 then 1 else minutes.

(** The turn [add_message] appends for a message that is an object:
    [None] when it lacks [role] or [content]. *)
Definition turn_of_message (ts : json) (msg : json) : option Turn :=
  match msg with
  | JDict m =>
      match dict_lookup "role" m, dict_lookup "content" m with
      | Some r, Some c => Some (mkTurn r c ts)
      | _, _ => None
      end
  | _ => None
  end.

(** The value of [request.content] in a record. *)
Definition request_content_of (log_data : json) : option json :=
  match log_data with
  | JDict d =>
      match dict_lookup "request" d with
      | Some (JDict r) => dict_lookup "content" r
      | _ => None
      end
  | _ => None
  end.

(** A record with [response.content] replaced, the rest as it is. *)
Definition with_response_content (d : list (string * json)) (v : json) : json :=
  JDict (("response", JDict [("content", v)]) :: d).

(** The five keys [extract_metadata] may set. *)
Definition metadata_keys : list string :=
  ["proxy_time_consumed"; "ip_address"; "machine_id"; "editor_version"; "model"].

(** What lines 100-129 append for the value [v] of the response
    content, starting from no turn, in a record that is an object. *)
Definition response_dispatch (log_data v : json) : list Turn * result unit :=
  match v with
  | JList chunks =>
      match add_chunks "" chunks with
      | Ok assistant_message =>
          (if str_empty assistant_message then []
           else [assistant_turn (JStr assistant_message) (record_timestamp log_data)],
           Ok tt)
      | Raise e => ([], Raise e)
      end
  | JDict c =>
      match dict_lookup "choices" c with
      | Some (JList (JDict choice :: _)) =>
          match dict_lookup "message" choice with
          | Some (JDict message) =>
              match dict_lookup "content" message with
              | Some text => ([assistant_turn text (record_timestamp log_data)], Ok tt)
              | None => ([], Ok tt)
              end
          | _ => ([], Ok tt)
          end
      | _ => ([], Ok tt)
      end
  | _ => ([], Ok tt)
  end.

(** The files of [files] whose modification time is [t]. *)
Definition with_mtime_eq (host : Host) (t : Z) (files : list FileTask) : list FileTask :=
  List.filter (fun f => bool_decide (os_path_getmtime host (path f) = Some t)) files.

(** The directory of [demo_host] with its one good file only. *)
Definition single_host : Host :=
  mkHost demo_loads "2025-03-26T06:16:09"
    (fun d => String.eqb d demo_dir)
    (fun d => if String.eqb d demo_dir then [(demo_dir, ["a.json"])] else [])
    (fun _ => Some 30)
    (fun _ => Some "{}")
    [demo_dir].

(** The answers of the sink with which [create_index_if_not_exists]
    returns [True]: the index exists, or it does not and is created. *)
Definition index_ensured (sink : Sink) : Prop :=
  es_indices_exists sink get_index_name = Ok true
  ∨ (es_indices_exists sink get_index_name = Ok false
     ∧ es_indices_create sink get_index_name = Ok tt).

(** The events a call added to the trace of [st]. *)
Definition new_events (st st' : State) : list event :=
  drop (length (events st)) (events st').

(** A server that creates the index and rejects one document of every
    bulk write. *)
Definition partial_sink : Sink :=
  mkSink (fun _ => Ok false) (fun _ => Ok tt) (fun _ _ => Ok "id")
         (fun actions => Ok (Z.of_nat (length actions) - 1, 1))
         (fun _ _ _ => Ok []).

Definition is_indices_create (e : event) : bool :=
  match e with
  | IndicesCreate _ => true
  | _ => false
  end.

(** A chunk of the streaming shape whose [delta.content] is [v]. *)
Definition chunk_of (v : json) : json :=
  JDict [("choices", JList [JDict [("delta", JDict [("content", v)])]])].

(** A value that is neither an object, a list nor a string. *)
Definition is_scalar (v : json) : bool :=
  match v with
  | JNull | JBool _ | JInt _ | JFloat _ => true
  | _ => false
  end.

(** The text [mark_file_as_processed] writes for [paths], one after the
    other: each path followed by a line feed. *)
Fixpoint lines_text (paths : list string) : string :=
  match paths with
  | [] => EmptyString
  | p :: rest => p ++ String LF (lines_text rest)
  end.

(** A tree in which the path of one file, written to the ledger, reads
    back as the path of another: [/d/b.json] does not parse, and the
    directory [/d/q<LF>/d] holds a good [b.json]. *)
Definition cross_dir : string := String "/" (String "d" (String "/" (String "q" (String LF "/d")))).

Definition cross_host : Host :=
  mkHost demo_loads "2025-03-26T06:16:09"
    (fun d => String.eqb d "/d")
    (fun d => if String.eqb d "/d"
              then [("/d", ["b.json"]); (cross_dir, ["b.json"])]
              else [])
    (fun p => if String.eqb p "/d/b.json" then Some 10 else Some 20)
    (fun p => if String.eqb p "/d/b.json" then Some "{oops" else Some "{}")
    ["/d"].

(** The directory of [demo_host] with two files of the same modification
    time between an older and a newer one; the walk lists the newest
    first. *)
Definition tie_host : Host :=
  mkHost demo_loads "2025-03-26T06:16:09"
    (fun d => String.eqb d demo_dir)
    (fun d => if String.eqb d demo_dir
              then [(demo_dir, ["z.json"; "n.json"; "m.json"; "a.json"])]
              else [])
    (fun p => if String.eqb p "/logs/alice/chat-panel/z.json" then Some 30
              else if String.eqb p "/logs/alice/chat-panel/a.json" then Some 10
              else Some 20)
    (fun _ => Some "{}")
    [demo_dir].
(** * Properties *)

Example decode_demo :
  let f := "2025-03-26T06-16-09.008386_f8f9e3fd25_10.8.170.31_vscode-1.87.0_chat-panel.json" in
  (extract_machine_id f, extract_ip_address f, extract_editor_version f)
  = ("f8f9e3fd25", "10.8.170.31", "vscode-1.87.0").
Proof. reflexivity. Qed.

Example path_demo :
  (basename "/logs/alice/chat-panel/a.json", dirname "/logs/alice/chat-panel",
   path_join "/logs/alice/chat-panel" "a.json", py_strip "  a b
", endswith ".json" "x.json", basename (dirname "/logs/alice/chat-panel"))
  = ("a.json", "/logs/alice", "/logs/alice/chat-panel/a.json", "a b", true, "alice").
Proof. reflexivity. Qed.

(** ** The filename decoder and the metadata map *)

Lemma token_or_unknown (parts : list string) (i : nat) :
  (if (i <? length parts)%nat then list_index parts i else Ok "unknown")
  = Ok (default "unknown" (parts !! i)).
Proof.
  unfold list_index.
  destruct (Nat.ltb_spec i (length parts)) as [Hlt | Hge].
  - destruct (lookup_lt_is_Some_2 parts i Hlt) as [x Hx]. by rewrite Hx.
  - by rewrite (lookup_ge_None_2 parts i Hge).
Qed.

Lemma extract_machine_id_token (filename : string) :
  extract_machine_id filename = default "unknown" (py_split "_" filename !! 1%nat).
Proof.
  unfold extract_machine_id, extract_machine_id_body.
  by rewrite token_or_unknown.
Qed.

Lemma extract_ip_address_token (filename : string) :
  extract_ip_address filename = default "unknown" (py_split "_" filename !! 2%nat).
Proof.
  unfold extract_ip_address, extract_ip_address_body.
  by rewrite token_or_unknown.
Qed.

Lemma extract_editor_version_token (filename : string) :
  extract_editor_version filename = default "unknown" (py_split "_" filename !! 3%nat).
Proof.
  unfold extract_editor_version, extract_editor_version_body.
  by rewrite token_or_unknown.
Qed.


Lemma extract_metadata_keys (d : list (string * json)) (filename : string) :
  has_filename_keys filename (extract_metadata (JDict d) filename).
Proof.
  unfold has_filename_keys, extract_metadata, try_except_log, extract_metadata_body.
  unfold ebind, elift, set_item, emodify, eret. simpl.
  destruct (dict_has "proxy-time-consumed" d) eqn:Htime; simpl.
  - unfold dict_has in Htime.
    destruct (dict_lookup "proxy-time-consumed" d) as [v|]; [simpl | done].
    destruct (rand _ _) as [[|]|e]; simpl;
      repeat (match goal with
              | |- context [match ?r with Ok _ => _ | Raise _ => _ end] =>
                  destruct r; simpl
              end);
      by simplify_map_eq.
  - destruct (rand _ _) as [[|]|e]; simpl;
      repeat (match goal with
              | |- context [match ?r with Ok _ => _ | Raise _ => _ end] =>
                  destruct r; simpl
              end);
      by simplify_map_eq.
Qed.

Lemma process_file_metadata (host : Host) (file_info : FileTask) (document : Document) :
  process_file host file_info = Some document →
  has_filename_keys (file_name document) (metadata document).
Proof.
  unfold process_file, process_file_body. intros H.
  destruct (load_json_file host (path file_info)) as [log_data|e]; [simpl in H | done].
  destruct log_data; try done. simpl in H.
  destruct (dict_lookup "timestamp" d); simpl in H; simplify_eq; simpl;
    apply extract_metadata_keys.
Qed.

(** C8.  For every filename the decoder body returns (it never reaches
    its handler) the 2nd, 3rd and 4th underscore-delimited tokens as
    machine id, IP address and editor version, a missing token being
    "unknown"; the metadata map of every record (a JSON object) holds
    the three keys [ip_address], [machine_id] and [editor_version], and
    so does the metadata of every document [process_file] returns; a
    filename of two tokens gives "unknown" for the IP address and the
    editor version. *)
Theorem C8_filename_decoder_never_fails (filename : string) :
  (extract_machine_id_body filename = Ok (default "unknown" (py_split "_" filename !! 1%nat))
   ∧ extract_ip_address_body filename = Ok (default "unknown" (py_split "_" filename !! 2%nat))
   ∧ extract_editor_version_body filename
     = Ok (default "unknown" (py_split "_" filename !! 3%nat)))
  ∧ (extract_machine_id filename = default "unknown" (py_split "_" filename !! 1%nat)
     ∧ extract_ip_address filename = default "unknown" (py_split "_" filename !! 2%nat)
     ∧ extract_editor_version filename = default "unknown" (py_split "_" filename !! 3%nat))
  ∧ (∀ d : list (string * json),
       has_filename_keys filename (extract_metadata (JDict d) filename))
  ∧ (∀ (host : Host) (file_info : FileTask) (document : Document),
       process_file host file_info = Some document →
       has_filename_keys (file_name document) (metadata document))
  ∧ (length (py_split "_" (basename filename)) = 2%nat →
     ∀ d : list (string * json),
       extract_metadata (JDict d) filename !! "ip_address" = Some (JStr "unknown")
       ∧ extract_metadata (JDict d) filename !! "editor_version" = Some (JStr "unknown")).
Proof.
  split; [| split; [| split; [| split]]].
  - unfold extract_machine_id_body, extract_ip_address_body, extract_editor_version_body.
    by rewrite !token_or_unknown.
  - auto using extract_machine_id_token, extract_ip_address_token,
      extract_editor_version_token.
  - intros d. apply extract_metadata_keys.
  - apply process_file_metadata.
  - intros Hlen d.
    destruct (extract_metadata_keys d filename) as (Hip & _ & Hed).
    rewrite Hip, Hed, extract_ip_address_token, extract_editor_version_token.
    rewrite !lookup_ge_None_2 by lia. done.
Qed.

Lemma C8_witness :
  length (py_split "_" (basename "/logs/alice/chat-panel/20250326_f8f9e3fd25")) = 2%nat
  ∧ extract_metadata (JDict []) "/logs/alice/chat-panel/20250326_f8f9e3fd25" !! "ip_address"
    = Some (JStr "unknown")
  ∧ extract_machine_id "20250326_f8f9e3fd25" = "f8f9e3fd25".
Proof.
  pose proof (C8_filename_decoder_never_fails
                "/logs/alice/chat-panel/20250326_f8f9e3fd25") as (_ & _ & _ & _ & H).
  split; [reflexivity |].
  split; [apply (H eq_refl []) | reflexivity].
Defined.

(** ** The index names the sink operations address *)


Lemma record_event_state (e : event) (st : State) :
  record_event e st = (mkState (ledger_file st) (events st ++ [e]), Ok tt).
Proof. reflexivity. Qed.


Lemma create_index_trace (sink : Sink) (name : string) (st : State) :
  ∃ new, extends_trace st (fst (create_index_if_not_exists sink name st)) new
         ∧ addresses_only name new
         ∧ Forall (fun e => match e with
                            | IndicesExists _ | IndicesCreate _ => True
                            | _ => False
                            end) new.
Proof.
  unfold create_index_if_not_exists, extends_trace, addresses_only,
    ebind, except_es, rbind, elift, eret.
  rewrite record_event_state.
  destruct (es_indices_exists sink name) as [[|]|[]]; simpl;
    try (exists [IndicesExists name]; repeat split; simpl; repeat constructor; done).
  all: destruct (es_indices_create sink name) as [[]|[]]; simpl.
  all: exists [IndicesExists name; IndicesCreate name].
  all: rewrite <- app_assoc; repeat split; simpl; repeat constructor.
Qed.

Lemma bulk_actions_index (name : string) (documents : list Document) :
  Forall (eq name) (map fst (map (fun doc => (name, doc)) documents)).
Proof. induction documents; simpl; constructor; auto. Qed.


Lemma bulk_actions_source (name : string) (documents : list Document) :
  map snd (map (fun doc => (name, doc)) documents) = documents.
Proof. induction documents; simpl; congruence. Qed.

Lemma bulk_index_trace (sink : Sink) (documents : list Document) (st : State) :
  ∃ new, extends_trace st (fst (bulk_index sink documents st)) new
         ∧ addresses_only get_index_name new
         ∧ Forall (fun e => is_ledger_append e = false
                            ∧ ∀ actions, e = Bulk actions → map snd actions = documents) new
         ∧ (length (List.filter is_bulk new) ≤ 1)%nat.
Proof.
  unfold bulk_index.
  destruct documents as [|doc documents].
  { exists []. unfold extends_trace, addresses_only. simpl.
    rewrite app_nil_r. repeat split; auto. }
  set (docs := doc :: documents).
  unfold ebind.
  destruct (create_index_trace sink get_index_name st)
    as (new & [Hl He] & Haddr & Hkind).
  destruct (create_index_if_not_exists sink get_index_name st) as [st1 [[|]|e]];
    simpl in Hl, He.
  - rewrite record_event_state.
    exists (new ++ [Bulk (map (fun d => (get_index_name, d)) docs)])%list.
    assert (Hst : ∀ r : result Z,
               extends_trace st
                 (fst (except_es r 0
                         (mkState (ledger_file st1)
                            (events st1 ++ [Bulk (map (fun d => (get_index_name, d)) docs)]))))
                 (new ++ [Bulk (map (fun d => (get_index_name, d)) docs)])).
    { intros [z|[]]; unfold extends_trace; simpl; by rewrite Hl, He, <- app_assoc. }
    split; [apply Hst |].
    split; [| split].
    + apply Forall_app. split; [done |].
      repeat constructor. apply bulk_actions_index.
    + apply Forall_app. split.
      * eapply Forall_impl; [exact Hkind |]. intros [] ?; done.
      * repeat constructor. intros actions [= <-].
        exact (bulk_actions_source get_index_name docs).
    + rewrite List.filter_app, length_app. simpl.
      assert (List.filter is_bulk new = []) as ->; [| simpl; lia].
      clear -Hkind. induction Hkind as [|[] ? ? ? IH]; simpl; done.
  - exists new. split; [done |]. split; [done |]. split.
    + eapply Forall_impl; [exact Hkind |]. intros [] ?; done.
    + assert (List.filter is_bulk new = []) as ->; [| simpl; lia].
      clear -Hkind. induction Hkind as [|[] ? ? ? IH]; simpl; done.
  - exists new. split; [done |]. split; [done |]. split.
    + eapply Forall_impl; [exact Hkind |]. intros [] ?; done.
    + assert (List.filter is_bulk new = []) as ->; [| simpl; lia].
      clear -Hkind. induction Hkind as [|[] ? ? ? IH]; simpl; done.
Qed.

(** C9 (the code at the input that breaks the claim).  Index creation
    and bulk writes address the fixed name "copilot-chat-logs", and so
    does [index_document]; [search_by_user] sends the expression
    "copilot-chat-logs-*", which the written index does not match: the
    search addresses other indices than the one the documents go to. *)
Theorem C9_search_pattern_misses_write_index :
  get_index_name = "copilot-chat-logs"
  ∧ (∀ (sink : Sink) (documents : list Document) (st : State),
       ∃ new, events (fst (bulk_index sink documents st)) = (events st ++ new)%list
              ∧ addresses_only "copilot-chat-logs" new)
  ∧ (∀ (sink : Sink) (user : string) (size : Z) (st : State),
       events (fst (search_by_user sink user size st))
       = (events st ++ [Search "copilot-chat-logs-*" user size])%list)
  ∧ wildcard_match "copilot-chat-logs-*" "copilot-chat-logs" = false
  ∧ wildcard_match search_index get_index_name = false.
Proof.
  split; [reflexivity |]. split; [| split; [| split; reflexivity]].
  - intros sink documents st.
    destruct (bulk_index_trace sink documents st) as (new & [_ He] & Haddr & _).
    exists new. split; [exact He | exact Haddr].
  - intros sink user size st. unfold search_by_user, ebind.
    rewrite record_event_state.
    by destruct (es_search sink search_index user size) as [|[]].
Qed.

(** ** One run: ledger appends and the bulk write *)

Lemma omap_cons_case {A B : Type} (f : A → option B) (x : A) (l : list A) :
  omap f (x :: l) = match f x with
                    | Some y => y :: omap f l
                    | None => omap f l
                    end.
Proof. reflexivity. Qed.

Lemma marked_cons (host : Host) (f : FileTask) (files : list FileTask) :
  marked host (f :: files)
  = match process_file host f with
    | Some _ => path f :: marked host files
    | None => marked host files
    end.
Proof. unfold marked. simpl. by destruct (process_file host f). Qed.

Lemma process_each_state (host : Host) (files : list FileTask) :
  ∀ (documents : list Document) (st : State),
    process_each host files documents st
    = (mkState (append_lines (ledger_file st) (marked host files))
               (events st ++ map LedgerAppend (marked host files)),
       Ok (documents ++ omap (process_file host) files)%list).
Proof.
  induction files as [|f files IH]; intros documents [ledger evs].
  - simpl. unfold eret. by rewrite !app_nil_r.
  - rewrite marked_cons, omap_cons_case. cbn [process_each].
    destruct (process_file host f) as [document|]; [| apply IH].
    unfold ebind, mark_file_as_processed, emodify.
    rewrite IH. cbn [ledger_file events append_lines foldl map].
    by rewrite <- !app_assoc.
Qed.

Lemma process_files_state (self : LogProcessor) (max_files : option Z) (host : Host)
    (st : State) :
  process_files self max_files host st
  = match get_unprocessed_files self max_files host with
    | Ok files =>
        (mkState (append_lines (ledger_file st) (marked host files))
                 (events st ++ map LedgerAppend (marked host files)),
         Ok (omap (process_file host) files))
    | Raise e => (st, Raise e)
    end.
Proof.
  unfold process_files, ebind, elift.
  destruct (get_unprocessed_files self max_files host) as [[|f files]|e]; [| | done].
  - destruct st. unfold eret. simpl. by rewrite app_nil_r.
  - by rewrite process_each_state.
Qed.

Lemma process_logs_body_state (host : Host) (sink : Sink) (st : State) :
  process_logs_body host sink st
  = match get_unprocessed_files (LogProcessor_init None host st)
            (Some MAX_FILES_PER_BATCH) host with
    | Ok files =>
        let st1 := mkState (append_lines (ledger_file st) (marked host files))
                           (events st ++ map LedgerAppend (marked host files)) in
        match omap (process_file host) files with
        | [] => (st1, Ok None)
        | documents =>
            ebind (bulk_index sink documents) (fun count => eret (Some count)) st1
        end
    | Raise e => (st, Raise e)
    end.
Proof.
  unfold process_logs_body. unfold ebind at 1. cbn beta iota.
  unfold ebind at 1. rewrite process_files_state.
  destruct (get_unprocessed_files _ _ host) as [files|e]; [| done].
  cbn beta iota zeta. by destruct (omap (process_file host) files).
Qed.

(** The events one run adds to the trace: first the ledger appends of
    the files that gave a document, then what the sink adapter does. *)
Lemma process_logs_trace (host : Host) (sink : Sink) (st : State) :
  ∃ sink_events,
    ledger_file (process_logs host sink st)
    = append_lines (ledger_file st) (marked host (run_files host st))
    ∧ events (process_logs host sink st)
      = (events st ++ map LedgerAppend (marked host (run_files host st)) ++ sink_events)%list
    ∧ Forall (fun e => is_ledger_append e = false
                       ∧ ∀ actions, e = Bulk actions →
                           map snd actions = omap (process_file host) (run_files host st))
             sink_events
    ∧ (length (List.filter is_bulk sink_events) ≤ 1)%nat.
Proof.
  unfold process_logs, run_files. rewrite process_logs_body_state.
  destruct (get_unprocessed_files _ _ host) as [files|e]; cbn zeta.
  - destruct (omap (process_file host) files) as [|doc docs] eqn:Hdocs.
    + exists []. simpl. rewrite app_nil_r. repeat split; auto.
    + unfold ebind.
      match goal with |- context [bulk_index sink ?d ?s] =>
        destruct (bulk_index_trace sink d s) as (new & [Hl He] & _ & Hkind & Hone);
        destruct (bulk_index sink d s) as [st' [count|e]]
      end; simpl in *; exists new; rewrite Hl, He, <- app_assoc; done.
  - exists []. destruct st. simpl. rewrite app_nil_r. repeat split; auto.
Qed.

Lemma process_file_some (host : Host) (f : FileTask) :
  is_Some (process_file host f) ↔ ∃ d, load_json_file host (path f) = Ok (JDict d).
Proof.
  unfold process_file, process_file_body.
  destruct (load_json_file host (path f)) as [log_data|e]; simpl.
  - destruct log_data; simpl;
      try (split; [intros [? ?]; done | intros [? ?]; done]).
    split; [eauto |]. intros _. by destruct (dict_lookup "timestamp" d).
  - split; [intros [? ?]; done | intros [? ?]; done].
Qed.

Lemma elem_of_marked (host : Host) (files : list FileTask) (p : string) :
  p ∈ marked host files
  ↔ ∃ f, f ∈ files ∧ path f = p ∧ is_Some (process_file host f).
Proof.
  unfold marked. rewrite list_elem_of_omap. split.
  - intros (f & Hf & Hp). exists f. split; [done |].
    destruct (process_file host f); simplify_eq. eauto.
  - intros (f & Hf & <- & [doc Hdoc]). exists f. by rewrite Hdoc.
Qed.

Lemma lookup_ledger_append (paths : list string) (i : nat) (p : string)
    (rest : list event) :
  Forall (fun e => is_ledger_append e = false) rest →
  (map LedgerAppend paths ++ rest)%list !! i = Some (LedgerAppend p) →
  (i < length paths)%nat.
Proof.
  intros Hrest Hi.
  destruct (decide (i < length paths)%nat) as [|Hge]; [done |].
  rewrite lookup_app_r in Hi by (rewrite length_map; lia).
  apply list_elem_of_lookup_2 in Hi.
  rewrite Forall_forall in Hrest. by specialize (Hrest _ Hi).
Qed.

Lemma lookup_bulk_after (paths : list string) (j : nat)
    (actions : list (string * Document)) (rest : list event) :
  (map LedgerAppend paths ++ rest)%list !! j = Some (Bulk actions) →
  (length paths ≤ j)%nat.
Proof.
  intros Hj.
  destruct (decide (length paths ≤ j)%nat) as [|Hlt]; [done |].
  rewrite lookup_app_l in Hj by (rewrite length_map; lia).
  rewrite list_lookup_fmap in Hj.
  destruct (paths !! j); simplify_eq.
Qed.

(** C2 as stated does not hold: in the run of [demo_host] the ledger
    append of the file comes first in the trace and the bulk write
    third. *)
Lemma C2_counterexample :
  ¬ appends_after_bulk (events (process_logs demo_host good_sink fresh_state)).
Proof.
  intros H.
  assert (∃ actions,
             events (process_logs demo_host good_sink fresh_state) !! 2%nat
             = Some (Bulk actions)) as [actions Hbulk]
    by (vm_compute; eauto).
  assert (events (process_logs demo_host good_sink fresh_state) !! 0%nat
          = Some (LedgerAppend "/logs/alice/chat-panel/a.json")) as Happend
    by reflexivity.
  pose proof (H _ _ _ _ Happend Hbulk). lia.
Qed.

(** C2, amended.  The events one run adds to the trace are the ledger
    appends of the files that gave a document, in the order of the
    files, followed by the events of the sink adapter; these hold no
    ledger append and at most one bulk write, which carries all the
    documents of the run.  So every ledger append of the run comes
    before the bulk write. *)
Theorem C2_ledger_appends_precede_bulk (host : Host) (sink : Sink) (st : State) :
  ∃ sink_events : list event,
    events (process_logs host sink st)
    = (events st ++ map LedgerAppend (marked host (run_files host st)) ++ sink_events)%list
    ∧ Forall (fun e => match e with
                       | LedgerAppend _ => False
                       | Bulk actions =>
                           map snd actions = omap (process_file host) (run_files host st)
                       | _ => True
                       end) sink_events
    ∧ (length (List.filter is_bulk sink_events) ≤ 1)%nat
    ∧ appends_before_bulk
        (map LedgerAppend (marked host (run_files host st)) ++ sink_events).
Proof.
  destruct (process_logs_trace host sink st) as (sink_events & _ & He & Hkind & Hone).
  exists sink_events. split; [exact He |]. split; [| split; [exact Hone |]].
  - eapply Forall_impl; [exact Hkind |].
    intros [] [Hno Hb]; simpl in *; try done. by apply Hb.
  - intros i j p actions Hi Hj.
    apply lookup_ledger_append in Hi.
    + apply lookup_bulk_after in Hj. lia.
    + eapply Forall_impl; [exact Hkind |]. by intros ? [? _].
Qed.

(** ** Lines of the ledger file *)

Lemma append_cons (c : ascii) (s t : string) : String c s ++ t = String c (s ++ t).
Proof. reflexivity. Qed.

Lemma append_empty_l (t : string) : EmptyString ++ t = t.
Proof. reflexivity. Qed.

Lemma append_empty_r (s : string) : s ++ EmptyString = s.
Proof. induction s as [|c s IH]; [done |]. by rewrite append_cons, IH. Qed.

Lemma append_assoc (s t u : string) : (s ++ t) ++ u = s ++ t ++ u.
Proof. induction s as [|c s IH]; [done |]. by rewrite !append_cons, IH. Qed.

Lemma last_char_snoc (s : string) (c : ascii) :
  last_char (s ++ String c EmptyString) = Some c.
Proof.
  induction s as [|d s IH]; [done |].
  rewrite append_cons. simpl. by rewrite IH.
Qed.

Lemma last_char_cases (s : string) :
  match last_char s with
  | None => s = EmptyString
  | Some c => ∃ s', s = s' ++ String c EmptyString
  end.
Proof.
  induction s as [|d s IH]; [done |]. simpl.
  destruct (last_char s) as [c|].
  - destruct IH as [s' ->]. by exists (String d s').
  - subst s. by exists EmptyString.
Qed.

Lemma universal_newlines_app_lf (a b : string) :
  universal_newlines (a ++ String LF b)
  = universal_newlines (a ++ String LF EmptyString) ++ universal_newlines b.
Proof.
  induction a as [|c a IH].
  - by rewrite !append_empty_l.
  - rewrite !append_cons. cbn [universal_newlines].
    destruct (Ascii.eqb c CR).
    + destruct a as [|d a].
      * rewrite !append_empty_l in *. by rewrite IH.
      * rewrite !append_cons in *.
        destruct (Ascii.eqb d LF); by rewrite IH.
    + by rewrite IH, append_cons.
Qed.

Lemma universal_newlines_snoc_lf (a : string) :
  ∃ t, universal_newlines (a ++ String LF EmptyString) = t ++ String LF EmptyString.
Proof.
  induction a as [|c a [t IH]].
  - by exists EmptyString.
  - rewrite append_cons. cbn [universal_newlines].
    destruct (Ascii.eqb c CR).
    + destruct a as [|d a].
      * by exists EmptyString.
      * rewrite append_cons in *.
        destruct (Ascii.eqb d LF); [by exists t |].
        exists (String LF t). by rewrite IH.
    + exists (String c t). by rewrite IH.
Qed.

Lemma split_lines_cons_nonempty (c : ascii) (s : string) :
  split_lines (String c s) ≠ [].
Proof.
  cbn [split_lines]. destruct (Ascii.eqb c LF); [done |].
  by destruct (split_lines s).
Qed.

Lemma split_lines_app_lf (t u : string) :
  split_lines (t ++ String LF u)
  = (split_lines (t ++ String LF EmptyString) ++ split_lines u)%list.
Proof.
  induction t as [|c t IH].
  - rewrite !append_empty_l. by cbn.
  - rewrite !append_cons. cbn [split_lines].
    destruct (Ascii.eqb c LF); [by rewrite IH |].
    rewrite IH.
    destruct (split_lines (t ++ String LF EmptyString)) eqn:Hl; [| done].
    destruct t; by apply split_lines_cons_nonempty in Hl.
Qed.

(** A text that ends with a line feed does not run into what follows. *)
Lemma readlines_app (a b : string) :
  readlines ((a ++ String LF EmptyString) ++ b)
  = (readlines (a ++ String LF EmptyString) ++ readlines b)%list.
Proof.
  unfold readlines.
  rewrite append_assoc, append_cons, append_empty_l, universal_newlines_app_lf.
  destruct (universal_newlines_snoc_lf a) as [t ->].
  by rewrite append_assoc, append_cons, append_empty_l, split_lines_app_lf.
Qed.

Lemma line_terminated_cases (text : string) :
  line_terminated (Some text) = true →
  text = EmptyString ∨ ∃ a, text = a ++ String LF EmptyString.
Proof.
  unfold line_terminated. pose proof (last_char_cases text) as H.
  destruct (last_char text) as [c|]; [| by left].
  intros Hc. apply Ascii.eqb_eq in Hc as ->. by right.
Qed.

Lemma line_terminated_append (ledger : option string) (p : string) :
  line_terminated (append_line ledger p) = true.
Proof.
  unfold line_terminated, append_line.
  rewrite <- append_assoc, last_char_snoc. apply Ascii.eqb_refl.
Qed.

Lemma line_terminated_append_lines (ledger : option string) (paths : list string) :
  line_terminated ledger = true →
  line_terminated (append_lines ledger paths) = true.
Proof.
  revert ledger. induction paths as [|p paths IH]; intros ledger H; [done |].
  apply IH, line_terminated_append.
Qed.

(** Appending a line adds the entries of that line and keeps the others. *)
Lemma get_processed_files_append (ledger : option string) (p : string) :
  line_terminated ledger = true →
  get_processed_files (append_line ledger p)
  = get_processed_files ledger ∪ get_processed_files (Some (p ++ String LF EmptyString)).
Proof.
  intros Hterm. unfold append_line.
  destruct ledger as [text|]; simpl.
  - destruct (line_terminated_cases text Hterm) as [-> | [a ->]].
    + rewrite append_empty_l. simpl. by rewrite (left_id_L ∅ (∪)).
    + rewrite readlines_app, map_app, list_to_set_app_L. done.
  - rewrite append_empty_l. by rewrite (left_id_L ∅ (∪)).
Qed.

Lemma get_processed_files_mono (ledger : option string) (paths : list string) :
  line_terminated ledger = true →
  get_processed_files ledger ⊆ get_processed_files (append_lines ledger paths).
Proof.
  revert ledger. induction paths as [|p paths IH]; intros ledger H; [done |].
  simpl. etrans; [| apply IH, line_terminated_append].
  rewrite get_processed_files_append by done. set_solver.
Qed.

Lemma universal_newlines_id (s t : string) :
  has_char CR s = false → universal_newlines (s ++ String LF t)
                          = s ++ universal_newlines (String LF t).
Proof.
  induction s as [|c s IH]; intros H; [done |].
  simpl in H. apply orb_false_elim in H as [Hc Hs].
  rewrite !append_cons. cbn [universal_newlines]. rewrite Hc.
  by rewrite IH.
Qed.

Lemma split_lines_one (s : string) :
  has_char LF s = false →
  split_lines (s ++ String LF EmptyString) = [s ++ String LF EmptyString].
Proof.
  induction s as [|c s IH]; intros H; [done |].
  simpl in H. apply orb_false_elim in H as [Hc Hs].
  rewrite append_cons. cbn [split_lines]. rewrite Hc, IH by done. done.
Qed.

Lemma rstrip_snoc_space (s : string) (c : ascii) :
  is_space c = true → rstrip (s ++ String c EmptyString) = rstrip s.
Proof.
  intros Hc. induction s as [|d s IH].
  - rewrite append_empty_l. simpl. by rewrite Hc.
  - rewrite append_cons. cbn [rstrip]. by rewrite IH.
Qed.

Lemma rstrip_id (s : string) :
  match last_char s with
  | None => true
  | Some c => negb (is_space c)
  end = true →
  rstrip s = s.
Proof.
  induction s as [|d s IH]; [done |]. simpl.
  destruct (last_char s) as [c|] eqn:Hlast.
  - intros H. rewrite IH by done.
    destruct s; [done |]. simpl. by rewrite andb_false_r.
  - intros Hd. pose proof (last_char_cases s) as Hs. rewrite Hlast in Hs. subst s.
    simpl. apply negb_true_iff in Hd. by rewrite Hd.
Qed.

Lemma py_strip_line (p : string) :
  clean_path p = true → py_strip (p ++ String LF EmptyString) = p.
Proof.
  unfold clean_path, py_strip. intros H.
  apply andb_prop in H as [H Hlast]. apply andb_prop in H as [_ Hfirst].
  destruct p as [|c p]; [done |].
  apply negb_true_iff in Hfirst.
  rewrite append_cons. cbn [lstrip]. rewrite Hfirst.
  rewrite <- append_cons, rstrip_snoc_space by done.
  by apply rstrip_id.
Qed.

(** A clean path is read back from its line as itself. *)
Lemma get_processed_files_line (p : string) :
  clean_path p = true →
  get_processed_files (Some (p ++ String LF EmptyString)) = {[ p ]}.
Proof.
  intros H. pose proof (py_strip_line p H) as Hstrip.
  unfold clean_path in H.
  apply andb_prop in H as [H _]. apply andb_prop in H as [H _].
  apply andb_prop in H as [Hlf Hcr].
  apply negb_true_iff in Hlf. apply negb_true_iff in Hcr.
  unfold get_processed_files, readlines.
  rewrite universal_newlines_id by done.
  change (universal_newlines (String LF EmptyString)) with (String LF EmptyString).
  rewrite split_lines_one by done. simpl. rewrite Hstrip.
  by rewrite (right_id_L ∅ (∪)).
Qed.

Lemma recorded_in_processed (ledger : option string) (p : string) :
  clean_path p = true →
  recorded_in ledger p →
  p ∈ get_processed_files ledger.
Proof.
  intros Hclean (before & after & Hterm & ->).
  apply (get_processed_files_mono _ after); [apply line_terminated_append |].
  rewrite get_processed_files_append, get_processed_files_line by done.
  apply elem_of_union_r. by apply elem_of_singleton.
Qed.

(** ** Discovery: candidates, sorting, the batch limit *)

Lemma candidates_filter (self : LogProcessor) (host : Host) :
  candidates self host
  = List.filter (fun f => negb (bool_decide (path f ∈ processed_files self)))
                (walked_json host (source_dirs self)).
Proof.
  unfold candidates, walked_json.
  induction (source_dirs self) as [|dir dirs IH]; [done |].
  simpl. rewrite List.filter_app, <- IH. f_equal.
  destruct (os_path_exists host dir); [| done].
  induction (os_walk host dir) as [|entry entries IHe]; [done |].
  simpl. rewrite List.filter_app, <- IHe. f_equal.
  unfold unprocessed_in.
  induction (snd entry) as [|file files IHf]; [done |].
  simpl. rewrite List.filter_app, <- IHf. f_equal.
  destruct (endswith ".json" file); [| done]. simpl.
  by destruct (bool_decide _).
Qed.

Lemma elem_of_candidates (self : LogProcessor) (host : Host) (f : FileTask) :
  f ∈ candidates self host
  ↔ f ∈ walked_json host (source_dirs self) ∧ path f ∉ processed_files self.
Proof.
  rewrite candidates_filter, !list_elem_of_In, List.filter_In.
  rewrite negb_true_iff, bool_decide_eq_false. done.
Qed.

Lemma insert_by_key_perm {A : Type} (x : Z * A) (l : list (Z * A)) :
  insert_by_key x l ≡ₚ x :: l.
Proof.
  induction l as [|y l IH]; [done |]. simpl.
  destruct (fst x <=? fst y); [done |].
  rewrite IH. apply Permutation_swap.
Qed.

Lemma sort_by_key_perm {A : Type} (l : list (Z * A)) : sort_by_key l ≡ₚ l.
Proof.
  induction l as [|x l IH]; [done |].
  unfold sort_by_key in *. simpl. by rewrite insert_by_key_perm, IH.
Qed.

Lemma insert_by_key_sorted {A : Type} (x : Z * A) (l : list (Z * A)) :
  StronglySorted key_le l → StronglySorted key_le (insert_by_key x l).
Proof.
  induction 1 as [|y l Hl IH Hy]; simpl.
  - repeat constructor.
  - destruct (Z.leb_spec (fst x) (fst y)) as [Hle | Hgt].
    + constructor; [by constructor |].
      constructor; [done |].
      eapply Forall_impl; [exact Hy |]. unfold key_le. intros; lia.
    + constructor; [done |].
      rewrite insert_by_key_perm. constructor; [unfold key_le; lia | done].
Qed.

Lemma sort_by_key_sorted {A : Type} (l : list (Z * A)) :
  StronglySorted key_le (sort_by_key l).
Proof.
  induction l as [|x l IH]; [constructor |].
  by apply insert_by_key_sorted.
Qed.


Lemma with_mtime_inv (host : Host) (files : list FileTask) (keyed : list (Z * FileTask)) :
  with_mtime host files = Ok keyed →
  map snd keyed = files
  ∧ Forall (fun kf => os_path_getmtime host (path (snd kf)) = Some (fst kf)) keyed.
Proof.
  revert keyed. induction files as [|f files IH]; intros keyed H; simpl in H.
  - by simplify_eq.
  - destruct (os_path_getmtime host (path f)) as [t|] eqn:Ht; [| done].
    destruct (with_mtime host files) as [rest|e]; [| done].
    simpl in H. simplify_eq. destruct (IH rest eq_refl) as [Hs Hall].
    simpl. split; [by rewrite Hs |]. by constructor.
Qed.

Lemma limit_sublist {A : Type} (max_files : option Z) (l : list A) (x : A) :
  x ∈ limit max_files l → x ∈ l.
Proof.
  unfold limit. destruct max_files as [n|]; [| done].
  destruct (0 <? n); [| done].
  intros H. apply list_elem_of_lookup in H as [i Hi].
  apply lookup_take_Some in Hi as [Hi _]. by eapply list_elem_of_lookup_2.
Qed.

(** What discovery returns was a candidate. *)
Lemma get_unprocessed_files_sub (self : LogProcessor) (max_files : option Z)
    (host : Host) (files : list FileTask) (f : FileTask) :
  get_unprocessed_files self max_files host = Ok files →
  f ∈ files → f ∈ candidates self host.
Proof.
  unfold get_unprocessed_files. intros H Hf.
  destruct (with_mtime host (candidates self host)) as [keyed|e] eqn:Hk; [| done].
  simpl in H. simplify_eq.
  apply limit_sublist in Hf.
  destruct (with_mtime_inv _ _ _ Hk) as [<- _].
  by rewrite (sort_by_key_perm keyed) in Hf.
Qed.

(** ** The ledger against discovery *)

Lemma processed_never_selected (host : Host) (st : State) (p : string) :
  p ∈ get_processed_files (ledger_file st) → never_selected host st p.
Proof.
  intros Hp dirs max_files files Hfiles Hin.
  apply list_elem_of_fmap in Hin as (f & -> & Hf).
  apply (get_unprocessed_files_sub _ _ _ _ _ Hfiles) in Hf.
  apply elem_of_candidates in Hf as [_ Hnot]. by apply Hnot.
Qed.

Lemma append_lines_app (ledger : option string) (xs ys : list string) :
  append_lines ledger (xs ++ ys) = append_lines (append_lines ledger xs) ys.
Proof. apply foldl_app. Qed.

(** C3 as stated does not hold for every path: the path of a file whose
    name holds a line feed is written to the ledger as two lines, is not
    in the set read back, and is selected again by the next run. *)
Lemma C3_counterexample :
  ¬ (∀ (host : Host) (st : State) (p : string),
       recorded_in (ledger_file st) p → never_selected host st p).
Proof.
  intros H.
  set (st := process_logs odd_host good_sink fresh_state).
  set (p := path_join demo_dir odd_name).
  assert (recorded_in (ledger_file st) p) as Hrec.
  { exists None, []. split; reflexivity. }
  apply (H odd_host st p Hrec None None [mkFileTask p "alice"]).
  - by vm_compute.
  - apply list_elem_of_singleton. reflexivity.
Qed.

(** C3, amended.  For a path without a line break inside and without
    white space at either end: once it is recorded in the ledger,
    discovery by a processor constructed afterwards never selects it,
    whatever the tree, the directories and the limit of that run and
    whatever was recorded after it; so a file that gave a document in
    one run is not selected by any later run. *)
Theorem C3_recorded_path_never_reselected (host : Host) (st : State) (p : string) :
  clean_path p = true →
  (recorded_in (ledger_file st) p → never_selected host st p)
  ∧ (∀ (sink : Sink) (later_host : Host) (later : list string) (trace : list event),
       line_terminated (ledger_file st) = true →
       p ∈ marked host (run_files host st) →
       never_selected later_host
         (mkState (append_lines (ledger_file (process_logs host sink st)) later) trace) p).
Proof.
  intros Hclean. split.
  - intros Hrec. by apply processed_never_selected, recorded_in_processed.
  - intros sink later_host later trace Hterm Hp.
    apply processed_never_selected, recorded_in_processed; [done |].
    destruct (process_logs_trace host sink st) as (_ & -> & _).
    apply list_elem_of_split in Hp as (xs & ys & ->).
    exists (append_lines (ledger_file st) xs), (ys ++ later)%list. simpl.
    split; [by apply line_terminated_append_lines |].
    by rewrite !append_lines_app.
Qed.

Lemma C3_witness :
  clean_path "/logs/alice/chat-panel/a.json" = true
  ∧ never_selected demo_host (process_logs demo_host dead_sink fresh_state)
      "/logs/alice/chat-panel/a.json".
Proof.
  assert (Hclean : clean_path "/logs/alice/chat-panel/a.json" = true)
    by (vm_compute; reflexivity).
  split; [exact Hclean |].
  pose proof (C3_recorded_path_never_reselected demo_host
                (process_logs demo_host dead_sink fresh_state)
                "/logs/alice/chat-panel/a.json" Hclean) as [Hrecorded _].
  apply Hrecorded.
  exists None, []. split; [reflexivity | vm_compute; reflexivity].
Defined.






(** ** A processor and the ledger written after its construction *)

Lemma mark_file_as_processed_state (p : string) (st : State) :
  mark_file_as_processed p st
  = (mkState (append_line (ledger_file st) p) (events st ++ [LedgerAppend p]), Ok tt).
Proof. reflexivity. Qed.

(** C10.  [mark_file_as_processed] appends the path and a line feed to
    the ledger file.  The set of a processor is the ledger as read at
    its construction: its candidates are the walked [.json] files whose
    path is not in that set, whatever was appended since.  So a second
    [process_files] on the same processor returns the documents of the
    first once more and appends their paths once more, while a
    processor constructed after the first call does not select a clean
    path the first call marked.  On [demo_host] the same instance marks
    [a.json] twice. *)
Theorem C10_marking_leaves_processor_set (dirs : option (list string))
    (max_files : option Z) (host : Host) (st0 : State) :
  let self := LogProcessor_init dirs host st0 in
  (∀ (p : string) (st : State),
     ledger_file (fst (mark_file_as_processed p st))
     = Some (default EmptyString (ledger_file st) ++ p ++ String LF EmptyString))
  ∧ processed_files self = get_processed_files (ledger_file st0)
  ∧ (∀ f, f ∈ candidates self host
          ↔ f ∈ walked_json host (source_dirs self)
            ∧ path f ∉ get_processed_files (ledger_file st0))
  ∧ (∀ (st : State) (files : list FileTask),
       get_unprocessed_files self max_files host = Ok files →
       let first := process_files self max_files host st in
       let second := process_files self max_files host (fst first) in
       snd first = Ok (omap (process_file host) files)
       ∧ ledger_file (fst first) = append_lines (ledger_file st) (marked host files)
       ∧ snd second = snd first
       ∧ ledger_file (fst second)
         = append_lines (ledger_file st) (marked host files ++ marked host files)
       ∧ (∀ p, p ∈ marked host files → p ∈ map path files)
       ∧ (∀ p, line_terminated (ledger_file st) = true → clean_path p = true →
               p ∈ marked host files →
               never_selected host (fst first) p))
  ∧ (let self := LogProcessor_init None demo_host fresh_state in
     let first := process_files self None demo_host fresh_state in
     let second := process_files self None demo_host (fst first) in
     events (fst second)
     = [LedgerAppend "/logs/alice/chat-panel/a.json";
        LedgerAppend "/logs/alice/chat-panel/a.json"]).
Proof.
  intros self.
  split; [done |]. split; [done |]. split; [apply elem_of_candidates |].
  split; [| by vm_compute].
  intros st files Hfiles. cbn zeta.
  rewrite !process_files_state, Hfiles. cbn [fst snd ledger_file].
  split; [done |]. split; [done |]. split; [done |].
  split; [by rewrite append_lines_app |]. split.
  - intros p Hp. apply elem_of_marked in Hp as (f & Hf & <- & _).
    apply list_elem_of_fmap. eauto.
  - intros p Hterm Hclean Hp.
    apply processed_never_selected, recorded_in_processed; [done |].
    apply list_elem_of_split in Hp as (xs & ys & ->).
    exists (append_lines (ledger_file st) xs), ys. simpl.
    split; [by apply line_terminated_append_lines |].
    by rewrite append_lines_app.
Qed.

(** ** The next run after a run *)

Lemma insert_by_key_le {A : Type} (x : Z * A) (l : list (Z * A)) :
  Forall (key_le x) l → insert_by_key x l = x :: l.
Proof.
  destruct 1 as [|y l Hy _]; [done |]. simpl.
  unfold key_le in Hy. by rewrite (proj2 (Z.leb_le _ _) Hy).
Qed.

Lemma Forall_filter_keep {A : Type} (P : A → Prop) (keep : A → bool) (l : list A) :
  Forall P l → Forall P (List.filter keep l).
Proof.
  induction 1 as [|y l Hy _ IH]; simpl; [constructor |].
  destruct (keep y); [by constructor | done].
Qed.

Lemma insert_by_key_filter {A : Type} (keep : Z * A → bool) (x : Z * A)
    (l : list (Z * A)) :
  StronglySorted key_le l →
  List.filter keep (insert_by_key x l)
  = if keep x then insert_by_key x (List.filter keep l) else List.filter keep l.
Proof.
  induction 1 as [|y l Hl IH Hy].
  - simpl. by destruct (keep x).
  - cbn [insert_by_key].
    destruct (Z.leb_spec (fst x) (fst y)) as [Hle | Hgt].
    + cbn [List.filter]. destruct (keep x); [| done].
      symmetry. apply insert_by_key_le.
      apply (Forall_filter_keep _ keep (y :: l)).
      constructor; [exact Hle |].
      eapply Forall_impl; [exact Hy |]. unfold key_le. intros; lia.
    + cbn [List.filter]. rewrite IH.
      destruct (keep x), (keep y); cbn [insert_by_key];
        rewrite ?(proj2 (Z.leb_gt _ _) Hgt); done.
Qed.

Lemma sort_by_key_filter {A : Type} (keep : Z * A → bool) (l : list (Z * A)) :
  List.filter keep (sort_by_key l) = sort_by_key (List.filter keep l).
Proof.
  induction l as [|x l IH]; [done |].
  change (sort_by_key (x :: l)) with (insert_by_key x (sort_by_key l)).
  rewrite insert_by_key_filter by apply sort_by_key_sorted.
  cbn [List.filter]. rewrite IH. by destruct (keep x).
Qed.

Lemma with_mtime_filter (host : Host) (keep : FileTask → bool) (files : list FileTask)
    (keyed : list (Z * FileTask)) :
  with_mtime host files = Ok keyed →
  with_mtime host (List.filter keep files)
  = Ok (List.filter (fun kf => keep (snd kf)) keyed).
Proof.
  revert keyed. induction files as [|f files IH]; intros keyed H; simpl in H.
  - by simplify_eq.
  - destruct (os_path_getmtime host (path f)) as [t|] eqn:Ht; [| done].
    destruct (with_mtime host files) as [rest|e]; [| done].
    simpl in H. simplify_eq. simpl.
    destruct (keep f); simpl; rewrite ?Ht, (IH rest eq_refl); done.
Qed.

Lemma map_snd_filter {A : Type} (keep : A → bool) (l : list (Z * A)) :
  map snd (List.filter (fun kf => keep (snd kf)) l) = List.filter keep (map snd l).
Proof.
  induction l as [|x l IH]; [done |]. simpl.
  destruct (keep (snd x)); simpl; by rewrite IH.
Qed.

Lemma take_filter_elem {A : Type} (keep : A → bool) (l : list A) (n : nat) (x : A) :
  x ∈ take n l → keep x = true → x ∈ take n (List.filter keep l).
Proof.
  revert n. induction l as [|y l IH]; intros n Hx Hk.
  - rewrite take_nil in Hx. by apply elem_of_nil in Hx.
  - destruct n as [|n]; [by apply elem_of_nil in Hx |].
    simpl in Hx. apply elem_of_cons in Hx as [<- | Hx].
    + simpl. rewrite Hk. apply list_elem_of_here.
    + simpl. destruct (keep y).
      * simpl. apply list_elem_of_further. by apply IH.
      * apply (IH (S n)); [| done].
        apply list_elem_of_lookup in Hx as [i Hi].
        apply lookup_take_Some in Hi as [Hi Hlt].
        apply list_elem_of_lookup. exists i.
        apply lookup_take_Some. split; [done | lia].
Qed.

Lemma limit_filter_elem {A : Type} (keep : A → bool) (max_files : option Z)
    (l : list A) (x : A) :
  x ∈ limit max_files l → keep x = true → x ∈ limit max_files (List.filter keep l).
Proof.
  unfold limit. destruct max_files as [n|].
  - destruct (0 <? n); [apply take_filter_elem |].
    all: intros Hx Hk; apply list_elem_of_In, List.filter_In;
      by rewrite <- list_elem_of_In.
  - intros Hx Hk. apply list_elem_of_In, List.filter_In.
    by rewrite <- list_elem_of_In.
Qed.

Lemma get_processed_files_append_lines (ledger : option string) (paths : list string) :
  line_terminated ledger = true →
  Forall (fun p => clean_path p = true) paths →
  get_processed_files (append_lines ledger paths)
  = get_processed_files ledger ∪ list_to_set paths.
Proof.
  intros Hterm Hclean. revert ledger Hterm.
  induction Hclean as [|p paths Hp _ IH]; intros ledger Hterm; simpl.
  - by rewrite (right_id_L ∅ (∪)).
  - rewrite IH by apply line_terminated_append.
    rewrite get_processed_files_append, get_processed_files_line by done.
    by rewrite (assoc_L (∪)).
Qed.

Lemma filter_filter_and {A : Type} (f g : A → bool) (l : list A) :
  List.filter g (List.filter f l) = List.filter (fun x => f x && g x) l.
Proof.
  induction l as [|x l IH]; [done |]. simpl.
  destruct (f x); simpl; [destruct (g x) |]; by rewrite IH.
Qed.

Lemma candidates_later (self later : LogProcessor) (host : Host) (new : gset string) :
  source_dirs later = source_dirs self →
  processed_files later = processed_files self ∪ new →
  candidates later host
  = List.filter (fun f => negb (bool_decide (path f ∈ new))) (candidates self host).
Proof.
  intros Hdirs Hset. rewrite !candidates_filter, Hdirs, Hset, filter_filter_and.
  apply List.filter_ext. intros f.
  destruct (bool_decide_reflect (path f ∈ processed_files self)) as [Ha | Ha],
           (bool_decide_reflect (path f ∈ new)) as [Hb | Hb],
           (bool_decide_reflect (path f ∈ processed_files self ∪ new)) as [Hc | Hc];
    simpl; try done; exfalso; revert Hc; rewrite elem_of_union; tauto.
Qed.

Lemma get_unprocessed_files_later (self later : LogProcessor) (host : Host)
    (new : gset string) (max_files : option Z) (files : list FileTask) (f : FileTask) :
  source_dirs later = source_dirs self →
  processed_files later = processed_files self ∪ new →
  get_unprocessed_files self max_files host = Ok files →
  f ∈ files → path f ∉ new →
  ∃ files', get_unprocessed_files later max_files host = Ok files' ∧ f ∈ files'.
Proof.
  intros Hdirs Hset Hfiles Hf Hnew. unfold get_unprocessed_files in *.
  rewrite (candidates_later self later host new Hdirs Hset).
  set (keep := fun g : FileTask => negb (bool_decide (path g ∈ new))).
  destruct (with_mtime host (candidates self host)) as [keyed|e] eqn:Hk; [| done].
  simpl in Hfiles. simplify_eq.
  rewrite (with_mtime_filter _ keep _ _ Hk). simpl. eexists. split; [done |].
  rewrite <- sort_by_key_filter, (map_snd_filter keep).
  apply limit_filter_elem; [done |].
  by apply negb_true_iff, bool_decide_eq_false.
Qed.

Lemma process_file_path (host : Host) (f g : FileTask) :
  path f = path g → process_file host f = None → process_file host g = None.
Proof.
  intros Hp Hf.
  destruct (process_file host g) as [doc|] eqn:Hg; [| done].
  assert (is_Some (process_file host f)) as [? ?]; [| congruence].
  apply process_file_some. rewrite Hp. apply process_file_some. eauto.
Qed.

Lemma failed_not_marked (host : Host) (files : list FileTask) (f : FileTask) :
  process_file host f = None → path f ∉ marked host files.
Proof.
  intros Hf Hin. apply elem_of_marked in Hin as (g & _ & Hp & [doc Hg]).
  by rewrite (process_file_path host f g) in Hg.
Qed.

(** A file that gave no document is selected again by the next run. *)
Lemma failed_file_rediscovered (host : Host) (sink : Sink) (st : State) (f : FileTask) :
  line_terminated (ledger_file st) = true →
  Forall (fun p => clean_path p = true) (marked host (run_files host st)) →
  f ∈ run_files host st →
  process_file host f = None →
  f ∈ run_files host (process_logs host sink st).
Proof.
  intros Hterm Hclean Hf Hnone. unfold run_files in Hf |- *.
  destruct (get_unprocessed_files (LogProcessor_init None host st) _ host)
    as [files|e] eqn:Hfiles; [| by apply elem_of_nil in Hf].
  destruct (get_unprocessed_files_later
              (LogProcessor_init None host st)
              (LogProcessor_init None host (process_logs host sink st))
              host (list_to_set (marked host files)) (Some MAX_FILES_PER_BATCH) files f)
    as (files' & -> & Hf'); try done.
  - simpl. destruct (process_logs_trace host sink st) as (_ & -> & _).
    unfold run_files in *. rewrite Hfiles in *.
    by apply get_processed_files_append_lines.
  - rewrite elem_of_list_to_set. by apply failed_not_marked.
Qed.

Lemma filter_ledger_appends (paths : list string) (rest : list event) :
  Forall (fun e => is_ledger_append e = false) rest →
  List.filter is_ledger_append (map LedgerAppend paths ++ rest) = map LedgerAppend paths.
Proof.
  intros Hrest. rewrite List.filter_app.
  assert (List.filter is_ledger_append rest = []) as ->.
  { induction Hrest as [|e rest He _ IH]; simpl; [done |]. by rewrite He. }
  rewrite app_nil_r. induction paths as [|p paths IH]; simpl; [done |].
  by rewrite IH.
Qed.

Lemma append_lines_text (ledger : option string) (paths : list string) :
  append_lines ledger paths
  = match paths with
    | [] => ledger
    | _ :: _ => Some (default EmptyString ledger ++ lines_text paths)
    end.
Proof.
  revert ledger. induction paths as [|p paths IH]; intros ledger; [done |].
  cbn [append_lines foldl]. fold (append_lines (append_line ledger p) paths).
  rewrite IH. unfold append_line. cbn [default lines_text].
  destruct paths as [|q paths]; [done |]. unfold id.
  by rewrite !append_assoc, append_cons, append_empty_l.
Qed.

(** C1 as stated does not hold for every tree: on [cross_host] the file
    [/d/b.json] does not parse and gives no document, yet the next run
    does not select it again, because the path of the other file,
    appended to the ledger, reads back as the two entries [/d/q] and
    [/d/b.json]. *)
Lemma C1_counterexample :
  ¬ (∀ (host : Host) (sink : Sink) (st : State) (f : FileTask),
       f ∈ run_files host st →
       process_file host f = None →
       f ∈ run_files host (process_logs host sink st)).
Proof.
  intros H.
  specialize (H cross_host dead_sink fresh_state (mkFileTask "/d/b.json" "")).
  assert (mkFileTask "/d/b.json" "" ∈ run_files cross_host fresh_state) as Hin
    by (vm_compute; apply list_elem_of_here).
  specialize (H Hin eq_refl). vm_compute in H.
  apply list_elem_of_singleton in H. discriminate H.
Qed.

(** C1, amended.  In every run the text of the ledger grows by the
    paths of exactly the files [process_file] turned into a document,
    each followed by a line feed, in order, and by nothing else (with
    no such file the ledger file is as before, not even created); the
    ledger appends of the run are those paths.  A file gives a document
    if and only if it loads as a JSON object, so the path of a file
    whose load raises is not appended; the ledger after the run is the
    same whatever the sink answers, also when the bulk write fails as a
    whole.  When the ledger is absent, empty or ends with a line feed
    and the paths appended in the run are clean, a selected file that
    gave no document is selected again by the next run over the same
    tree. *)
Theorem C1_ledger_marks_exactly_documents (host : Host) (sink : Sink) (st : State) :
  let files := run_files host st in
  let after := process_logs host sink st in
  ledger_file after
  = match marked host files with
    | [] => ledger_file st
    | _ :: _ => Some (default EmptyString (ledger_file st) ++ lines_text (marked host files))
    end
  ∧ List.filter is_ledger_append (drop (length (events st)) (events after))
    = map LedgerAppend (marked host files)
  ∧ (∀ p : string,
       p ∈ marked host files
       ↔ ∃ f, f ∈ files ∧ path f = p ∧ is_Some (process_file host f))
  ∧ (∀ f : FileTask,
       is_Some (process_file host f)
       ↔ ∃ d, load_json_file host (path f) = Ok (JDict d))
  ∧ (∀ (f : FileTask) (e : exn),
       load_json_file host (path f) = Raise e → path f ∉ marked host files)
  ∧ (∀ other : Sink, ledger_file (process_logs host other st) = ledger_file after)
  ∧ (∀ f : FileTask,
       line_terminated (ledger_file st) = true →
       Forall (fun p => clean_path p = true) (marked host files) →
       f ∈ files →
       process_file host f = None →
       f ∈ run_files host after).
Proof.
  intros files after. subst files after.
  destruct (process_logs_trace host sink st) as (sink_events & Hl & He & Hkind & _).
  split; [by rewrite Hl, append_lines_text |].
  split; [| split; [| split; [| split; [| split]]]].
  - rewrite He, drop_app_length. apply filter_ledger_appends.
    eapply Forall_impl; [exact Hkind |]. by intros ? [? _].
  - intros p. apply elem_of_marked.
  - intros f. apply process_file_some.
  - intros f e Hload. apply failed_not_marked.
    destruct (process_file host f) as [doc|] eqn:Hf; [| done].
    assert (is_Some (process_file host f)) as Hs by eauto.
    apply process_file_some in Hs as [d Hd]. congruence.
  - intros other.
    destruct (process_logs_trace host other st) as (_ & Hl' & _). congruence.
  - intros f Hterm Hclean Hf Hnone. by apply failed_file_rediscovered.
Qed.

Lemma C1_witness :
  line_terminated (ledger_file fresh_state) = true
  ∧ Forall (fun p => clean_path p = true) (marked demo_host (run_files demo_host fresh_state))
  ∧ ledger_file (process_logs demo_host failing_bulk_sink fresh_state)
    = Some "/logs/alice/chat-panel/a.json
"
  ∧ mkFileTask "/logs/alice/chat-panel/b.json" "alice"
    ∈ run_files demo_host (process_logs demo_host failing_bulk_sink fresh_state).
Proof.
  assert (Hclean : Forall (fun p => clean_path p = true)
                     (marked demo_host (run_files demo_host fresh_state))).
  { apply Forall_forall. intros p Hp. vm_compute in Hp.
    apply list_elem_of_singleton in Hp as ->. by vm_compute. }
  destruct (C1_ledger_marks_exactly_documents demo_host failing_bulk_sink fresh_state)
    as (Hledger & _ & _ & _ & _ & _ & Hagain).
  split; [reflexivity |]. split; [exact Hclean |]. split.
  - rewrite Hledger. by vm_compute.
  - apply Hagain; [reflexivity | exact Hclean | | reflexivity].
    vm_compute. apply list_elem_of_here.
Defined.

(** ** Conversation extraction *)

Lemma framed_eret {A : Type} (a : A) : framed (eret a).
Proof. intros s. unfold eret. simpl. by rewrite app_nil_r. Qed.

Lemma framed_elift {A : Type} (r : result A) : framed (elift r).
Proof. intros s. unfold elift. simpl. by rewrite app_nil_r. Qed.

Lemma framed_append_turn (t : Turn) : framed (append_turn t).
Proof. intros s. reflexivity. Qed.

Lemma framed_ebind {A B : Type} (m : Exec (list Turn) A) (k : A → Exec (list Turn) B) :
  framed m → (∀ a, framed (k a)) → framed (ebind m k).
Proof.
  intros Hm Hk s. unfold ebind. rewrite (Hm s).
  destruct (m []) as [x [a|e]]; simpl.
  - rewrite (Hk a (s ++ x)%list), (Hk a x). simpl. by rewrite app_assoc.
  - done.
Qed.

Lemma framed_efor {A : Type} (l : list A) (body : A → Exec (list Turn) unit) :
  (∀ a, framed (body a)) → framed (efor l body).
Proof.
  intros Hbody. induction l as [|a l IH]; simpl.
  - apply framed_eret.
  - apply framed_ebind; [apply Hbody | intros _; apply IH].
Qed.

Ltac framed_step :=
  match goal with
  | |- framed (ebind _ _) => apply framed_ebind; [| intros ?]
  | |- framed (elift _) => apply framed_elift
  | |- framed (eret _) => apply framed_eret
  | |- framed (append_turn _) => apply framed_append_turn
  | |- framed (efor _ _) => apply framed_efor; intros ?
  | |- framed (if ?b then _ else _) => destruct b
  | |- framed (match ?x with _ => _ end) => destruct x
  end.

Lemma framed_request_block (json_loads : string → option json) (log_data : json) :
  framed (request_block json_loads log_data).
Proof. unfold request_block, add_message. cbv zeta. repeat framed_step. Qed.

Lemma framed_response_block (json_loads : string → option json) (log_data : json) :
  framed (response_block json_loads log_data).
Proof. unfold response_block, direct_choice. repeat framed_step. Qed.

(** The conversation is what the request block appended, followed by
    what the response block appended when the request block returned. *)
Lemma extract_conversation_blocks (json_loads : string → option json) (log_data : json) :
  extract_conversation json_loads log_data
  = (fst (request_block json_loads log_data [])
     ++ match snd (request_block json_loads log_data []) with
        | Ok _ => fst (response_block json_loads log_data [])
        | Raise _ => []
        end)%list.
Proof.
  unfold extract_conversation, try_except_log, extract_conversation_body, ebind.
  destruct (request_block json_loads log_data []) as [turns [[]|e]]; simpl.
  - by rewrite (framed_response_block json_loads log_data turns).
  - by rewrite app_nil_r.
Qed.

Lemma response_content_inv (log_data v : json) :
  response_content log_data = Some v →
  ∃ d r, log_data = JDict d
         ∧ dict_lookup "response" d = Some (JDict r)
         ∧ dict_lookup "content" r = Some v.
Proof.
  unfold response_content. intros H.
  destruct log_data as [| | | | | |d]; try done.
  destruct (dict_lookup "response" d) as [[| | | | | |r]|] eqn:Hr; try done.
  eauto.
Qed.

Lemma response_present (d r : list (string * json)) (v : json) :
  dict_lookup "response" d = Some (JDict r) →
  dict_lookup "content" r = Some v →
  has_content "response" (JDict d) = Ok true
  ∧ py_getitem (JDict d) "response" = Ok (JDict r)
  ∧ py_getitem (JDict r) "content" = Ok v.
Proof.
  intros Hr Hc. unfold has_content, rand, rbind, py_in, py_getitem, dict_has.
  by rewrite Hr, Hc.
Qed.

(** Lines 87-97 on a text that is not JSON: one assistant turn with the
    text, and neither of the two branches that follow. *)
Lemma response_block_plain_text (json_loads : string → option json)
    (log_data : json) (text : string) :
  response_content log_data = Some (JStr text) →
  json_loads text = None →
  response_block json_loads log_data []
  = ([assistant_turn (JStr text) (record_timestamp log_data)], Ok tt).
Proof.
  intros Hc Hparse.
  destruct (response_content_inv _ _ Hc) as (d & r & -> & Hr & Hv).
  destruct (response_present d r _ Hr Hv) as (Hp & Hg1 & Hg2).
  unfold response_block, ebind, elift. rewrite Hp, Hg1, Hg2, Hparse.
  unfold py_get, record_timestamp.
  by destruct (dict_lookup "timestamp" d).
Qed.

(** Lines 100-116 on a list: the accumulator of the loop decides. *)
Lemma response_block_chunks (json_loads : string → option json)
    (log_data : json) (chunks : list json) :
  response_content log_data = Some (JList chunks) →
  response_block json_loads log_data []
  = match add_chunks "" chunks with
    | Ok assistant_message =>
        (if str_empty assistant_message then []
         else [assistant_turn (JStr assistant_message) (record_timestamp log_data)],
         Ok tt)
    | Raise e => ([], Raise e)
    end.
Proof.
  intros Hc.
  destruct (response_content_inv _ _ Hc) as (d & r & -> & Hr & Hv).
  destruct (response_present d r _ Hr Hv) as (Hp & Hg1 & Hg2).
  unfold response_block, ebind, elift, eret. rewrite Hp, Hg1, Hg2.
  destruct (add_chunks "" chunks) as [acc|e]; [| done].
  destruct (str_empty acc); [done |]. simpl.
  unfold py_get, record_timestamp.
  by destruct (dict_lookup "timestamp" d).
Qed.

Lemma add_chunk_text (acc text : string) :
  add_chunk acc (chunk text) = Ok (acc ++ text).
Proof.
  unfold add_chunk, chunk. simpl.
  unfold add_choice. simpl.
  destruct text as [|c text]; simpl; [by rewrite append_empty_r | done].
Qed.

(** The loop over chunks of the streaming shape joins their texts in
    list order. *)
Lemma add_chunks_texts (texts : list string) :
  ∀ acc, add_chunks acc (map chunk texts) = Ok (acc ++ String.concat "" texts).
Proof.
  induction texts as [|text texts IH]; intros acc.
  - simpl. by rewrite append_empty_r.
  - cbn [map add_chunks]. rewrite add_chunk_text. cbn [rbind]. rewrite IH.
    f_equal. rewrite append_assoc. f_equal.
    destruct texts as [|t2 texts]; [by rewrite append_empty_r | done].
Qed.


(** When the request block returns and the loop over the chunks returns
    [assistant_message], one assistant turn is appended if and only if
    that text is not empty. *)
Lemma extract_conversation_chunks (json_loads : string → option json)
    (log_data : json) (chunks : list json) (assistant_message : string) :
  response_content log_data = Some (JList chunks) →
  add_chunks "" chunks = Ok assistant_message →
  snd (request_block json_loads log_data []) = Ok tt →
  extract_conversation json_loads log_data
  = (fst (request_block json_loads log_data [])
     ++ if str_empty assistant_message then []
        else [assistant_turn (JStr assistant_message) (record_timestamp log_data)])%list.
Proof.
  intros Hc Hacc Hreq.
  by rewrite extract_conversation_blocks, Hreq, (response_block_chunks _ _ chunks), Hacc.
Qed.

(** Whatever the response holds, the turns of the request stay. *)
Lemma extract_conversation_keeps_request (json_loads : string → option json)
    (log_data : json) :
  ∃ more, extract_conversation json_loads log_data
          = (fst (request_block json_loads log_data []) ++ more)%list.
Proof. rewrite extract_conversation_blocks. eauto. Qed.

(** A record that is a JSON object always gives a document, also with
    no turn at all. *)
Lemma process_file_object (host : Host) (f : FileTask) (d : list (string * json)) :
  load_json_file host (path f) = Ok (JDict d) →
  ∃ ts, process_file host f
        = Some (mkDocument ts (basename (path f)) (user_id f)
                  (extract_conversation (host_json_loads host) (JDict d))
                  (extract_metadata (JDict d) (basename (path f)))).
Proof.
  intros Hload. unfold process_file, process_file_body. rewrite Hload. simpl.
  destruct (dict_lookup "timestamp" d); simpl; eauto.
Qed.

(** C4 (the code at the inputs that break the claim).  Extraction
    returns a list for every record and keeps the request turns
    whatever the response holds.  The converse fails: a response that
    alone gives an assistant turn gives none when the request holds
    [messages: null] or is [null] itself, because the error raised in
    the request block ends the whole extraction. *)
Theorem C4_request_mismatch_loses_response (json_loads : string → option json) :
  (∀ log_data, ∃ more,
      extract_conversation json_loads log_data
      = (fst (request_block json_loads log_data []) ++ more)%list)
  ∧ extract_conversation json_loads
      (JDict [("timestamp", JStr "t0"); ("response", direct_response)])
    = [assistant_turn (JStr "Hi") (JStr "t0")]
  ∧ extract_conversation json_loads (record_of null_messages_request direct_response) = []
  ∧ extract_conversation json_loads (record_of JNull direct_response) = []
  ∧ extract_conversation json_loads (record_of user_request JNull)
    = [mkTurn (JStr "user") (JStr "Hello?") (JStr "t0")].
Proof.
  split; [apply extract_conversation_keeps_request |].
  repeat split; reflexivity.
Qed.

(** C5 (the code at the input that breaks the claim).  The response is
    a text that does not parse.  After a well-formed request the
    conversation ends with the one assistant turn holding that text;
    after a request with [messages: null] the conversation is empty:
    no assistant turn is appended. *)
Theorem C5_plain_text_lost_after_request_error :
  response_content (record_of null_messages_request plain_response)
  = Some (JStr "plain text")
  ∧ demo_loads "plain text" = None
  ∧ extract_conversation demo_loads (record_of null_messages_request plain_response) = []
  ∧ extract_conversation demo_loads (record_of user_request plain_response)
    = [mkTurn (JStr "user") (JStr "Hello?") (JStr "t0");
       assistant_turn (JStr "plain text") (JStr "t0")].
Proof. repeat split; reflexivity. Qed.

(** C6 (the code at the input that breaks the claim).  The response is
    the list of the two chunks "Hel" and "lo", whose accumulator is
    "Hello".  After a well-formed request, and with no request at all,
    the conversation ends with the one assistant turn "Hello"; after a
    request with [messages: null] the conversation is empty. *)
Theorem C6_stream_lost_after_request_error (json_loads : string → option json) :
  response_content (record_of null_messages_request streamed_response)
  = Some (JList [chunk "Hel"; chunk "lo"])
  ∧ add_chunks "" [chunk "Hel"; chunk "lo"] = Ok "Hello"
  ∧ extract_conversation json_loads (record_of null_messages_request streamed_response) = []
  ∧ extract_conversation json_loads (JDict [("response", streamed_response)])
    = [assistant_turn (JStr "Hello") JNull]
  ∧ extract_conversation json_loads (record_of user_request streamed_response)
    = [mkTurn (JStr "user") (JStr "Hello?") (JStr "t0");
       assistant_turn (JStr "Hello") (JStr "t0")].
Proof. repeat split; reflexivity. Qed.

(** * Further properties of the program *)

(** ** File names and paths *)

Lemma py_split_token (sep : ascii) (a rest : string) :
  has_char sep a = false →
  py_split sep (a ++ String sep rest) = a :: py_split sep rest.
Proof.
  induction a as [|c a IH]; intros H.
  - rewrite append_empty_l. simpl. by rewrite Ascii.eqb_refl.
  - simpl in H. apply orb_false_elim in H as [Hc Ha].
    rewrite append_cons. cbn [py_split]. by rewrite Hc, IH.
Qed.

Lemma py_split_last (sep : ascii) (a : string) :
  has_char sep a = false → py_split sep a = [a].
Proof.
  induction a as [|c a IH]; intros H; [done |].
  simpl in H. apply orb_false_elim in H as [Hc Ha].
  cbn [py_split]. by rewrite Hc, IH.
Qed.

(** X1.  A file name made of a timestamp, a machine id, an IP address,
    an editor version and a rest, joined by underscores, none of the
    first four holding an underscore, decodes to these fields. *)
Theorem filename_fields_round_trip (ts machine ip version rest : string) :
  has_char "_" ts = false →
  has_char "_" machine = false →
  has_char "_" ip = false →
  has_char "_" version = false →
  let filename :=
    ts ++ String "_" (machine ++ String "_" (ip ++ String "_" (version ++ String "_" rest))) in
  extract_machine_id filename = machine
  ∧ extract_ip_address filename = ip
  ∧ extract_editor_version filename = version
  ∧ py_split "_" filename !! 0%nat = Some ts.
Proof.
  intros Hts Hm Hip Hv filename. subst filename.
  rewrite extract_machine_id_token, extract_ip_address_token, extract_editor_version_token.
  by rewrite !py_split_token.
Qed.

Lemma filename_fields_round_trip_witness :
  extract_machine_id
    "2025-03-26T06-16-09.008386_f8f9e3fd25_10.8.170.31_vscode-1.87.0_chat-panel.json"
  = "f8f9e3fd25"
  ∧ extract_editor_version
      "2025-03-26T06-16-09.008386_f8f9e3fd25_10.8.170.31_vscode-1.87.0_chat-panel.json"
    = "vscode-1.87.0".
Proof.
  destruct (filename_fields_round_trip "2025-03-26T06-16-09.008386" "f8f9e3fd25"
              "10.8.170.31" "vscode-1.87.0" "chat-panel.json"
              eq_refl eq_refl eq_refl eq_refl) as (Hm & _ & Hv & _).
  split; [exact Hm | exact Hv].
Defined.

Lemma replace_char_gone (old new : ascii) (s : string) :
  old ≠ new → has_char old (replace_char old new s) = false.
Proof.
  intros Hne. induction s as [|c s IH]; [done |]. simpl. rewrite IH.
  destruct (Ascii.eqb_spec c old) as [-> | Hc].
  - rewrite orb_false_r. apply Ascii.eqb_neq. congruence.
  - rewrite orb_false_r. by apply Ascii.eqb_neq.
Qed.

Lemma replace_char_keeps (old new other : ascii) (s : string) :
  other ≠ new → has_char other s = false →
  has_char other (replace_char old new s) = false.
Proof.
  intros Hne. induction s as [|c s IH]; [done |]. simpl.
  intros H. apply orb_false_elim in H as [Hc Hs]. rewrite (IH Hs), orb_false_r.
  destruct (Ascii.eqb c old); [| done].
  apply Ascii.eqb_neq. congruence.
Qed.

Lemma replace_char_length (old new : ascii) (s : string) :
  String.length (replace_char old new s) = String.length s.
Proof. induction s as [|c s IH]; simpl; congruence. Qed.

Lemma py_split_head (sep : ascii) (s : string) :
  ∃ token rest, py_split sep s = token :: rest.
Proof.
  induction s as [|c s (token & rest & IH)]; simpl; [eauto |].
  destruct (Ascii.eqb c sep); [eauto |]. rewrite IH. eauto.
Qed.

(** X2.  [extract_timestamp_from_filename] never reaches its handler:
    it returns the text before the first underscore with every hyphen
    turned into a colon and every [T] into a space, so the result has
    the length of that text and holds neither a hyphen nor a [T]; the
    hyphens of the date become colons as well. *)
Theorem extract_timestamp_rewrites_first_token (now filename : string) :
  ∃ token rest,
    py_split "_" filename = token :: rest
    ∧ extract_timestamp_from_filename_body filename
      = Ok (replace_char "T" " " (replace_char "-" ":" token))
    ∧ extract_timestamp_from_filename now filename
      = replace_char "T" " " (replace_char "-" ":" token)
    ∧ has_char "-" (extract_timestamp_from_filename now filename) = false
    ∧ has_char "T" (extract_timestamp_from_filename now filename) = false
    ∧ String.length (extract_timestamp_from_filename now filename) = String.length token
    ∧ extract_timestamp_from_filename now
        "2025-03-26T06-16-09.008386_f8f9e3fd25_10.8.170.31_vscode-1.87.0_chat-panel.json"
      = "2025:03:26 06:16:09.008386".
Proof.
  destruct (py_split_head "_" filename) as (token & rest & Hsplit).
  exists token, rest.
  assert (Hbody : extract_timestamp_from_filename_body filename
                  = Ok (replace_char "T" " " (replace_char "-" ":" token))).
  { unfold extract_timestamp_from_filename_body. by rewrite Hsplit. }
  unfold extract_timestamp_from_filename at 1 2 3 4. rewrite Hbody. simpl.
  split; [done |]. split; [done |]. split; [done |].
  split; [| split; [| split]].
  - apply replace_char_keeps; [done |]. by apply replace_char_gone.
  - by apply replace_char_gone.
  - by rewrite !replace_char_length.
  - reflexivity.
Qed.

Lemma str_contains_slash (s : string) : str_contains "/" s = has_char "/" s.
Proof.
  induction s as [|c s IH]; [done |].
  cbn [str_contains has_char startswith]. rewrite IH, (Ascii.eqb_sym "/" c).
  f_equal. destruct s; apply andb_true_r.
Qed.

Lemma has_char_app (c : ascii) (s t : string) :
  has_char c (s ++ t) = has_char c s || has_char c t.
Proof.
  induction s as [|d s IH]; [done |].
  rewrite append_cons. simpl. by rewrite IH, orb_assoc.
Qed.

Lemma basename_no_slash (s : string) : has_char "/" s = false → basename s = s.
Proof.
  destruct s as [|c s]; [done |]. simpl. intros H.
  apply orb_false_elim in H as [Hc Hs]. by rewrite str_contains_slash, Hs, Hc.
Qed.

(** The text after the last slash. *)
Lemma basename_app_slash (x y : string) :
  has_char "/" y = false → basename (x ++ String "/" y) = y.
Proof.
  intros Hy. induction x as [|c x IH].
  - rewrite append_empty_l. simpl. by rewrite str_contains_slash, Hy.
  - rewrite append_cons. cbn [basename].
    rewrite str_contains_slash, has_char_app. simpl. by rewrite orb_true_r.
Qed.

Lemma split_head_app_slash (x y : string) :
  has_char "/" y = false → split_head (x ++ String "/" y) = x ++ String "/" EmptyString.
Proof.
  intros Hy. induction x as [|c x IH].
  - rewrite !append_empty_l. simpl. by rewrite str_contains_slash, Hy.
  - rewrite !append_cons. cbn [split_head].
    rewrite str_contains_slash, has_char_app. simpl. by rewrite orb_true_r, IH.
Qed.

Lemma all_slashes_app (s t : string) :
  all_slashes (s ++ t) = all_slashes s && all_slashes t.
Proof.
  induction s as [|c s IH]; [done |].
  rewrite append_cons. simpl. by rewrite IH, andb_assoc.
Qed.

Lemma all_slashes_no_slash (s : string) :
  s ≠ EmptyString → has_char "/" s = false → all_slashes s = false.
Proof.
  destruct s as [|c s]; [done |]. simpl. intros _ H.
  apply orb_false_elim in H as [Hc _]. by rewrite Hc.
Qed.

Lemma rstrip_slash_snoc (s : string) :
  rstrip_slash (s ++ String "/" EmptyString) = rstrip_slash s.
Proof.
  induction s as [|c s IH]; [done |].
  rewrite append_cons. cbn [rstrip_slash]. by rewrite IH.
Qed.

Lemma rstrip_slash_no_slash (s : string) :
  has_char "/" s = false → rstrip_slash s = s.
Proof.
  induction s as [|c s IH]; [done |]. simpl. intros H.
  apply orb_false_elim in H as [Hc Hs]. by rewrite Hc, (IH Hs).
Qed.

Lemma rstrip_slash_app (x s : string) :
  s ≠ EmptyString → has_char "/" s = false → rstrip_slash (x ++ s) = x ++ s.
Proof.
  intros Hne Hs. induction x as [|c x IH].
  - rewrite append_empty_l. by apply rstrip_slash_no_slash.
  - rewrite append_cons. cbn [rstrip_slash]. rewrite IH.
    destruct (x ++ s) eqn:Hx; [| by rewrite andb_false_r].
    destruct x; [by rewrite append_empty_l in Hx | done].
Qed.

(** [os.path.dirname] of a path whose last two components are [user]
    and [leaf]. *)
Lemma dirname_of_leaf (base user leaf : string) :
  user ≠ EmptyString → has_char "/" user = false → has_char "/" leaf = false →
  dirname (base ++ String "/" (user ++ String "/" leaf)) = base ++ String "/" user.
Proof.
  intros Hne Hu Hl. unfold dirname.
  replace (base ++ String "/" (user ++ String "/" leaf))
    with ((base ++ String "/" user) ++ String "/" leaf)
    by (by rewrite append_assoc, append_cons).
  rewrite split_head_app_slash by done.
  assert (all_slashes ((base ++ String "/" user) ++ String "/" EmptyString) = false) as ->.
  { rewrite !all_slashes_app. cbn [all_slashes].
    rewrite (all_slashes_no_slash user) by done. by rewrite !andb_false_r. }
  rewrite rstrip_slash_snoc.
  replace (base ++ String "/" user) with ((base ++ String "/" EmptyString) ++ user)
    by (by rewrite append_assoc, append_cons).
  by apply rstrip_slash_app.
Qed.

(** X3.  For a log directory [<base>/<user>/<leaf>] whose user
    component is not empty and holds no slash, the user id is that
    component, whatever the base; a trailing slash on the directory
    shifts the answer to the last component, so
    [<base>/<user>/chat-panel/] has user id [chat-panel]. *)
Theorem user_id_is_parent_directory (base user leaf : string) :
  user ≠ EmptyString →
  has_char "/" user = false →
  has_char "/" leaf = false →
  get_user_id_from_path (base ++ String "/" (user ++ String "/" leaf)) = user
  ∧ get_user_id_from_path
      (base ++ String "/" (user ++ String "/" ("chat-panel" ++ String "/" EmptyString)))
    = "chat-panel".
Proof.
  intros Hne Hu Hl. unfold get_user_id_from_path. split.
  - rewrite dirname_of_leaf by done. by apply basename_app_slash.
  - replace (base ++ String "/" (user ++ String "/" ("chat-panel" ++ String "/" EmptyString)))
      with ((base ++ String "/" user) ++ String "/" ("chat-panel" ++ String "/" EmptyString))
      by (by rewrite append_assoc, append_cons).
    rewrite dirname_of_leaf by done. by apply basename_app_slash.
Qed.

Lemma user_id_is_parent_directory_witness :
  get_user_id_from_path "/logs/alice/chat-panel" = "alice"
  ∧ get_user_id_from_path "/logs/alice/chat-panel/" = "chat-panel".
Proof.
  apply (user_id_is_parent_directory "/logs" "alice" "chat-panel"); [done | done | done].
Defined.

(** ** The ledger file *)

Lemma efor_mark_state (paths : list string) (st : State) :
  efor paths mark_file_as_processed st
  = (mkState (append_lines (ledger_file st) paths)
             (events st ++ map LedgerAppend paths), Ok tt).
Proof.
  revert st. induction paths as [|p paths IH]; intros [ledger evs].
  - simpl. unfold eret. by rewrite app_nil_r.
  - cbn [efor]. unfold ebind. rewrite mark_file_as_processed_state, IH.
    simpl. by rewrite <- app_assoc.
Qed.

(** X4.  Marking clean paths one after the other on a line-terminated
    ledger and reading the ledger back gives the old entries and
    exactly these paths (a path marked twice is one entry); the ledger
    stays line-terminated.  A ledger file that is missing or empty
    reads as the empty set. *)
Theorem ledger_reads_back_marked_paths (st : State) (paths : list string) :
  line_terminated (ledger_file st) = true →
  Forall (fun p => clean_path p = true) paths →
  let st' := fst (efor paths mark_file_as_processed st) in
  get_processed_files (ledger_file st')
  = get_processed_files (ledger_file st) ∪ list_to_set paths
  ∧ line_terminated (ledger_file st') = true
  ∧ get_processed_files None = ∅
  ∧ get_processed_files (Some EmptyString) = ∅.
Proof.
  intros Hterm Hclean. cbn zeta. rewrite efor_mark_state. cbn [fst ledger_file].
  split; [by apply get_processed_files_append_lines |].
  split; [by apply line_terminated_append_lines |]. done.
Qed.

Lemma ledger_reads_back_marked_paths_witness :
  get_processed_files
    (ledger_file (fst (efor ["/logs/a.json"; "/logs/b.json"; "/logs/a.json"]
                         mark_file_as_processed fresh_state)))
  = get_processed_files None ∪ list_to_set ["/logs/a.json"; "/logs/b.json"; "/logs/a.json"].
Proof.
  apply (ledger_reads_back_marked_paths fresh_state
           ["/logs/a.json"; "/logs/b.json"; "/logs/a.json"]).
  - reflexivity.
  - repeat constructor.
Defined.

Lemma append_lines_suffix (ledger : option string) (paths : list string) :
  ∃ suffix, default EmptyString (append_lines ledger paths)
            = default EmptyString ledger ++ suffix.
Proof.
  revert ledger. induction paths as [|p paths IH]; intros ledger.
  - exists EmptyString. simpl. by rewrite append_empty_r.
  - destruct (IH (append_line ledger p)) as [suffix Hs].
    exists ((p ++ String LF EmptyString) ++ suffix). simpl. rewrite Hs.
    unfold append_line. simpl. by rewrite <- !append_assoc.
Qed.

Lemma append_lines_present (ledger : option string) (paths : list string) :
  is_Some ledger → is_Some (append_lines ledger paths).
Proof.
  revert ledger. induction paths as [|p paths IH]; intros ledger H; [done |].
  simpl. apply IH. unfold append_line. eauto.
Qed.

(** X5.  A run only appends to the ledger: the text of the ledger
    before the run is a prefix of the text after it, a ledger file that
    exists still exists, and on a line-terminated ledger every entry
    read before the run is read after it. *)
Theorem run_only_appends_to_ledger (host : Host) (sink : Sink) (st : State) :
  (∃ suffix,
      default EmptyString (ledger_file (process_logs host sink st))
      = default EmptyString (ledger_file st) ++ suffix)
  ∧ (is_Some (ledger_file st) → is_Some (ledger_file (process_logs host sink st)))
  ∧ (line_terminated (ledger_file st) = true →
     get_processed_files (ledger_file st)
     ⊆ get_processed_files (ledger_file (process_logs host sink st))
     ∧ line_terminated (ledger_file (process_logs host sink st)) = true).
Proof.
  destruct (process_logs_trace host sink st) as (_ & -> & _).
  split; [apply append_lines_suffix |]. split; [apply append_lines_present |].
  intros Hterm. split.
  - by apply get_processed_files_mono.
  - by apply line_terminated_append_lines.
Qed.

(** ** The metadata map *)

Ltac split_results :=
  repeat match goal with
         | |- context [match ?r with Ok _ => _ | Raise _ => _ end] => destruct r; simpl
         | |- context [if ?b then _ else _] => destruct b; simpl
         end.

(** X6.  The metadata of a record that is a JSON object holds
    [proxy_time_consumed] exactly when the record has
    [proxy-time-consumed], with its value as it is; it holds [model]
    exactly when [request] is an object whose [content] is an object
    with a [model], so a [content] kept as text gives no [model] even
    if the text names one; no key besides the five known ones is set. *)
Theorem metadata_of_object (d : list (string * json)) (filename : string) :
  let m := extract_metadata (JDict d) filename in
  m !! "proxy_time_consumed" = dict_lookup "proxy-time-consumed" d
  ∧ m !! "model" = match request_content_of (JDict d) with
                   | Some (JDict c) => dict_lookup "model" c
                   | _ => None
                   end
  ∧ (∀ text, request_content_of (JDict d) = Some (JStr text) → m !! "model" = None)
  ∧ (∀ key, key ∉ metadata_keys → m !! key = None).
Proof.
  cbn zeta.
  assert (Hmodel : extract_metadata (JDict d) filename !! "model"
                   = match request_content_of (JDict d) with
                     | Some (JDict c) => dict_lookup "model" c
                     | _ => None
                     end).
  { unfold extract_metadata, try_except_log, extract_metadata_body, request_content_of.
    unfold ebind, elift, set_item, emodify, eret, has_content, rand, rbind.
    unfold py_in at 1. unfold py_getitem at 1. unfold dict_has at 1.
    destruct (dict_lookup "proxy-time-consumed" d) as [v|]; cbn [fst snd];
      unfold py_in at 1; unfold dict_has at 1;
      (destruct (dict_lookup "request" d) as [[| | | | | |r]|] eqn:Hr;
       cbn [py_getitem py_in fst snd]; rewrite ?Hr; cbn [py_getitem py_in fst snd];
       [split_results; by simplify_map_eq.. | | by simplify_map_eq]);
      unfold dict_has at 1;
      (destruct (dict_lookup "content" r) as [[| | | | | |c]|] eqn:Hc;
       cbn [py_getitem py_in fst snd]; rewrite ?Hc; cbn [py_getitem py_in fst snd];
       [split_results; by simplify_map_eq.. | | by simplify_map_eq]);
      unfold dict_has;
      (destruct (dict_lookup "model" c) as [model|] eqn:Hm;
       cbn [py_getitem py_in fst snd]; rewrite ?Hm; by simplify_map_eq). }
  split; [| split; [exact Hmodel | split]].
  - unfold extract_metadata, try_except_log, extract_metadata_body.
    unfold ebind, elift, set_item, emodify, eret. cbn [py_in py_getitem].
    unfold dict_has.
    destruct (dict_lookup "proxy-time-consumed" d) as [v|]; cbn [fst snd];
      split_results; by simplify_map_eq.
  - intros text Htext. by rewrite Hmodel, Htext.
  - intros key Hkey. unfold metadata_keys in Hkey.
    repeat (apply not_elem_of_cons in Hkey as [? Hkey]).
    unfold extract_metadata, try_except_log, extract_metadata_body.
    unfold ebind, elift, set_item, emodify, eret. cbn [py_in py_getitem].
    unfold dict_has.
    destruct (dict_lookup "proxy-time-consumed" d) as [v|]; cbn [fst snd];
      split_results; by simplify_map_eq.
Qed.

(** ** More on conversation extraction *)

Lemma request_content_inv (log_data v : json) :
  request_content_of log_data = Some v →
  ∃ d r, log_data = JDict d
         ∧ dict_lookup "request" d = Some (JDict r)
         ∧ dict_lookup "content" r = Some v.
Proof.
  unfold request_content_of. intros H.
  destruct log_data as [| | | | | |d]; try done.
  destruct (dict_lookup "request" d) as [[| | | | | |r]|] eqn:Hr; try done.
  eauto.
Qed.

Lemma request_present (d r : list (string * json)) (v : json) :
  dict_lookup "request" d = Some (JDict r) →
  dict_lookup "content" r = Some v →
  has_content "request" (JDict d) = Ok true
  ∧ py_getitem (JDict d) "request" = Ok (JDict r)
  ∧ py_getitem (JDict r) "content" = Ok v.
Proof.
  intros Hr Hc. unfold has_content, rand, rbind, py_in, py_getitem, dict_has.
  by rewrite Hr, Hc.
Qed.

Lemma add_message_object (json_loads : string → option json)
    (d m : list (string * json)) (s : list Turn) :
  add_message (JDict d) (JDict m) s
  = ((s ++ option_list (turn_of_message (record_timestamp (JDict d)) (JDict m)))%list, Ok tt).
Proof.
  unfold add_message, ebind, elift, eret, append_turn, emodify, rand, rbind.
  unfold py_in, py_getitem, py_get, dict_has, turn_of_message, record_timestamp.
  destruct (dict_lookup "role" m) as [r|], (dict_lookup "content" m) as [c|];
    simpl; rewrite ?app_nil_r; try done.
  by destruct (dict_lookup "timestamp" d).
Qed.

Lemma efor_add_message (json_loads : string → option json)
    (d : list (string * json)) (msgs : list json) :
  Forall (fun m => is_dict m = true) msgs →
  ∀ s, efor msgs (add_message (JDict d)) s
       = ((s ++ omap (turn_of_message (record_timestamp (JDict d))) msgs)%list, Ok tt).
Proof.
  induction 1 as [|msg msgs Hmsg _ IH]; intros s.
  - simpl. unfold eret. by rewrite app_nil_r.
  - destruct msg as [| | | | | |m]; try done.
    cbn [efor]. unfold ebind. rewrite (add_message_object json_loads), IH.
    rewrite omap_cons_case, <- app_assoc.
    by destruct (turn_of_message _ (JDict m)).
Qed.

(** The value the request block works on: the text parsed when it is a
    text that parses, the value itself otherwise. *)
Lemma request_block_parsed (json_loads : string → option json)
    (log_data raw : json) :
  request_content_of log_data = Some raw →
  let parsed := match raw with
                | JStr text => default raw (json_loads text)
                | _ => raw
                end in
  request_block json_loads log_data []
  = match parsed with
    | JDict c =>
        match dict_lookup "messages" c with
        | Some messages =>
            match py_iter messages with
            | Ok items => efor items (add_message log_data) []
            | Raise e => ([], Raise e)
            end
        | None => ([], Ok tt)
        end
    | _ => ([], Ok tt)
    end.
Proof.
  intros Hraw.
  destruct (request_content_inv _ _ Hraw) as (d & r & -> & Hr & Hc).
  destruct (request_present d r _ Hr Hc) as (Hp & Hg1 & Hg2).
  unfold request_block, ebind, elift, eret. rewrite Hp, Hg1, Hg2. cbn zeta.
  assert (∀ parsed : json,
             match
               (if is_dict parsed then py_in "messages" parsed else Ok false)
             with
             | Ok a =>
                 (if a
                  then fun s : list Turn =>
                         match py_getitem parsed "messages" with
                         | Ok a0 =>
                             match py_iter a0 with
                             | Ok a1 => efor a1 (add_message (JDict d)) s
                             | Raise e => (s, Raise e)
                             end
                         | Raise e => (s, Raise e)
                         end
                  else fun s : list Turn => (s, Ok tt)) []
             | Raise e => ([], Raise e)
             end
             = match parsed with
               | JDict c =>
                   match dict_lookup "messages" c with
                   | Some messages =>
                       match py_iter messages with
                       | Ok items => efor items (add_message (JDict d)) []
                       | Raise e => ([], Raise e)
                       end
                   | None => ([], Ok tt)
                   end
               | _ => ([], Ok tt)
               end) as Hcases.
  { intros [| | | | | |c]; try done. simpl. unfold dict_has.
    by destruct (dict_lookup "messages" c). }
  destruct raw as [|b|z|q|text|l|c];
    [exact (Hcases JNull) | exact (Hcases (JBool b)) | exact (Hcases (JInt z))
    | exact (Hcases (JFloat q)) | | exact (Hcases (JList l)) | exact (Hcases (JDict c))].
  cbn [default]. destruct (json_loads text) as [parsed|];
    [exact (Hcases parsed) | exact (Hcases (JStr text))].
Qed.

Lemma direct_choice_dispatch (json_loads : string → option json)
    (d c : list (string * json)) :
  direct_choice (JDict d) (JDict c) [] = response_dispatch (JDict d) (JDict c).
Proof.
  unfold direct_choice, response_dispatch, ebind, elift, eret, append_turn, emodify.
  unfold py_in, py_getitem, py_get, dict_has, record_timestamp.
  destruct (dict_lookup "choices" c) as [[| | | | |[|[| | | | | |choice] rest]|]|];
    try done.
  simpl. destruct (dict_lookup "message" choice) as [[| | | | | |message]|]; try done.
  simpl. destruct (dict_lookup "content" message) as [text|]; [| done].
  by destruct (dict_lookup "timestamp" d).
Qed.

(** The response block on a record whose [response.content] is [raw]. *)
Lemma response_block_dispatch (json_loads : string → option json)
    (log_data raw : json) :
  response_content log_data = Some raw →
  response_block json_loads log_data []
  = match raw with
    | JStr text =>
        match json_loads text with
        | Some parsed => response_dispatch log_data parsed
        | None => ([assistant_turn raw (record_timestamp log_data)], Ok tt)
        end
    | _ => response_dispatch log_data raw
    end.
Proof.
  intros Hraw.
  destruct raw as [|b|z|q|text|chunks|c].
  5: { destruct (json_loads text) as [parsed|] eqn:Hparse;
         [| by apply response_block_plain_text].
       destruct (response_content_inv _ _ Hraw) as (d & r & -> & Hr & Hc).
       destruct (response_present d r _ Hr Hc) as (Hp & Hg1 & Hg2).
       unfold response_block, ebind, elift, eret. rewrite Hp, Hg1, Hg2, Hparse.
       destruct parsed as [| | | | |chunks|c]; try done.
       - unfold response_dispatch. destruct (add_chunks "" chunks) as [acc|e]; [| done].
         destruct (str_empty acc); [done |]. simpl.
         unfold py_get, record_timestamp. by destruct (dict_lookup "timestamp" d).
       - apply (direct_choice_dispatch json_loads). }
  5: { by rewrite (response_block_chunks _ _ chunks). }
  all: destruct (response_content_inv _ _ Hraw) as (d & r & -> & Hr & Hc).
  all: destruct (response_present d r _ Hr Hc) as (Hp & Hg1 & Hg2).
  all: unfold response_block, ebind, elift, eret; rewrite Hp, Hg1, Hg2; try done.
  apply (direct_choice_dispatch json_loads).
Qed.

(** Without a [response] object holding [content] nothing is appended. *)
Lemma response_block_absent (json_loads : string → option json) (log_data : json) :
  response_content log_data = None →
  fst (response_block json_loads log_data []) = [].
Proof.
  unfold response_content, response_block, ebind, elift, eret, has_content, rand, rbind.
  intros H.
  destruct log_data as [| | | |s|l|d]; try done.
  - simpl. by destruct (str_contains "response" s).
  - simpl. by destruct (existsb (is_str_value "response") l).
  - unfold py_in at 1. unfold dict_has at 1. unfold py_getitem at 1 2.
    destruct (dict_lookup "response" d) as [[| | | |s|l|r]|]; try done.
    + simpl. by destruct (str_contains "content" s).
    + simpl. by destruct (existsb (is_str_value "content") l).
    + simpl. unfold dict_has. by rewrite H.
Qed.

Lemma response_dispatch_one_turn (log_data v : json) :
  (length (fst (response_dispatch log_data v)) ≤ 1)%nat
  ∧ Forall (fun t => role t = JStr "assistant") (fst (response_dispatch log_data v)).
Proof.
  unfold response_dispatch.
  repeat (match goal with
          | |- context [match ?x with _ => _ end] => destruct x
          end; cbn [fst snd length]);
    (split; [lia | repeat constructor]).
Qed.

Lemma response_block_one_turn (json_loads : string → option json) (log_data : json) :
  (length (fst (response_block json_loads log_data [])) ≤ 1)%nat
  ∧ Forall (fun t => role t = JStr "assistant") (fst (response_block json_loads log_data [])).
Proof.
  destruct (response_content log_data) as [raw|] eqn:Hraw.
  - rewrite (response_block_dispatch _ _ raw Hraw).
    destruct raw as [| | | |text| |]; try apply response_dispatch_one_turn.
    destruct (json_loads text); [apply response_dispatch_one_turn |].
    simpl. split; [lia | repeat constructor].
  - rewrite response_block_absent by done. simpl. split; [lia | constructor].
Qed.

(** X7.  Whatever the record, the conversation is the turns of the
    request followed by at most one more turn, and that turn has the
    role "assistant". *)
Theorem conversation_is_request_then_one_reply (json_loads : string → option json)
    (log_data : json) :
  ∃ more,
    extract_conversation json_loads log_data
    = (fst (request_block json_loads log_data []) ++ more)%list
    ∧ (length more ≤ 1)%nat
    ∧ Forall (fun t => role t = JStr "assistant") more.
Proof.
  rewrite extract_conversation_blocks.
  destruct (response_block_one_turn json_loads log_data) as [Hlen Hrole].
  destruct (snd (request_block json_loads log_data [])).
  - eexists. split; [reflexivity |]. by split.
  - exists []. split; [reflexivity |]. simpl. split; [lia | constructor].
Qed.

(** X8.  When [request.content] is an object, or a text that parses to
    one, whose [messages] is a list of objects, the conversation starts
    with one turn per message that has both [role] and [content], in
    the order of the list, each with the values of the message as they
    are and the timestamp of the record; messages lacking one of the
    two keys are left out. *)
Theorem request_messages_become_turns (json_loads : string → option json)
    (log_data raw : json) (c : list (string * json)) (msgs : list json) :
  request_content_of log_data = Some raw →
  match raw with
  | JStr text => default raw (json_loads text)
  | _ => raw
  end = JDict c →
  dict_lookup "messages" c = Some (JList msgs) →
  Forall (fun m => is_dict m = true) msgs →
  request_block json_loads log_data []
  = (omap (turn_of_message (record_timestamp log_data)) msgs, Ok tt)
  ∧ ∃ more,
      extract_conversation json_loads log_data
      = (omap (turn_of_message (record_timestamp log_data)) msgs ++ more)%list
      ∧ (length more ≤ 1)%nat.
Proof.
  intros Hraw Hparsed Hmsgs Hdicts.
  assert (Hblock : request_block json_loads log_data []
                   = (omap (turn_of_message (record_timestamp log_data)) msgs, Ok tt)).
  { rewrite (request_block_parsed json_loads log_data raw Hraw). cbn zeta.
    rewrite Hparsed, Hmsgs. cbn [py_iter].
    destruct (request_content_inv _ _ Hraw) as (d & r & -> & _).
    by rewrite (efor_add_message json_loads d msgs Hdicts). }
  split; [exact Hblock |].
  rewrite extract_conversation_blocks, Hblock. cbn [fst snd].
  exists (fst (response_block json_loads log_data [])).
  split; [done |]. apply response_block_one_turn.
Qed.

Lemma request_messages_become_turns_witness :
  request_block demo_loads (record_of user_request direct_response) []
  = ([mkTurn (JStr "user") (JStr "Hello?") (JStr "t0")], Ok tt).
Proof.
  apply (request_messages_become_turns demo_loads
           (record_of user_request direct_response)
           (JDict [("messages",
                    JList [JDict [("role", JStr "user"); ("content", JStr "Hello?")]])])
           [("messages",
             JList [JDict [("role", JStr "user"); ("content", JStr "Hello?")]])]
           [JDict [("role", JStr "user"); ("content", JStr "Hello?")]]
           eq_refl eq_refl eq_refl).
  repeat constructor.
Defined.



(** X10.  When [response.content] is an object whose [choices] is a
    list starting with an object that holds a [message] object with a
    [content], the response gives one assistant turn with that content,
    whatever JSON value it is and whatever choices follow the first;
    an empty [choices] list gives no turn. *)
Theorem direct_choice_takes_first_choice (json_loads : string → option json)
    (log_data : json) (c choice message : list (string * json))
    (others : list json) (text : json) :
  response_content log_data = Some (JDict c) →
  dict_lookup "choices" c = Some (JList (JDict choice :: others)) →
  dict_lookup "message" choice = Some (JDict message) →
  dict_lookup "content" message = Some text →
  response_block json_loads log_data []
  = ([assistant_turn text (record_timestamp log_data)], Ok tt).
Proof.
  intros Hc Hchoices Hmessage Htext.
  rewrite (response_block_dispatch _ _ _ Hc). unfold response_dispatch.
  by rewrite Hchoices, Hmessage, Htext.
Qed.

Lemma direct_choice_takes_first_choice_witness :
  response_block demo_loads (record_of user_request direct_response) []
  = ([assistant_turn (JStr "Hi") (JStr "t0")], Ok tt).
Proof.
  apply (direct_choice_takes_first_choice demo_loads
           (record_of user_request direct_response)
           [("choices", JList [JDict [("message", JDict [("content", JStr "Hi")])]])]
           [("message", JDict [("content", JStr "Hi")])]
           [("content", JStr "Hi")] [] (JStr "Hi")); reflexivity.
Defined.

Lemma request_block_ignores_response (json_loads : string → option json)
    (d : list (string * json)) (v : json) :
  request_block json_loads (with_response_content d v) []
  = request_block json_loads (JDict d) [].
Proof. reflexivity. Qed.

(** X11.  A [response.content] given as text that parses to a value
    other than a string is handled as that value given directly: the
    two records have the same conversation. *)
Theorem response_text_is_handled_as_parsed (json_loads : string → option json)
    (d : list (string * json)) (text : string) (v : json) :
  response_content (JDict d) = Some (JStr text) →
  json_loads text = Some v →
  (∀ s, v ≠ JStr s) →
  extract_conversation json_loads (JDict d)
  = extract_conversation json_loads (with_response_content d v).
Proof.
  intros Hraw Hparse Hv.
  rewrite !extract_conversation_blocks, request_block_ignores_response.
  rewrite (response_block_dispatch _ _ _ Hraw), Hparse.
  rewrite (response_block_dispatch json_loads (with_response_content d v) v eq_refl).
  destruct v; try done. by destruct (Hv s).
Qed.

Lemma response_text_is_handled_as_parsed_witness :
  extract_conversation demo_loads (record_of user_request (JDict [("content", JStr "[]")]))
  = extract_conversation demo_loads
      (with_response_content
         [("timestamp", JStr "t0"); ("request", user_request);
          ("response", JDict [("content", JStr "[]")])]
         (JList [])).
Proof.
  apply (response_text_is_handled_as_parsed demo_loads
           [("timestamp", JStr "t0"); ("request", user_request);
            ("response", JDict [("content", JStr "[]")])]
           "[]" (JList []) eq_refl eq_refl).
  intros s. discriminate.
Defined.

(** ** Files, documents and discovery *)

Lemma basename_has_no_slash (p : string) : has_char "/" (basename p) = false.
Proof.
  induction p as [|c p IH]; [done |]. cbn [basename].
  rewrite str_contains_slash.
  destruct (has_char "/" p) eqn:Hp; [done |].
  destruct (Ascii.eqb c "/") eqn:Hc; [done |].
  simpl. by rewrite Hc, Hp.
Qed.

(** X12.  [process_file] returns a document exactly for a file that
    can be read and parses to a JSON object: its timestamp is the
    [timestamp] of the record, whatever value that is, and the clock
    when the record has none; its file name is the last component of
    the path and holds no slash; its user id is the one of the task.
    A file that cannot be read, does not parse, or parses to a value
    that is not an object gives no document. *)
Theorem process_file_outcome (host : Host) (file_info : FileTask) :
  match load_json_file host (path file_info) with
  | Ok (JDict d) =>
      process_file host file_info
      = Some (mkDocument
                (default (JStr (host_now host)) (dict_lookup "timestamp" d))
                (basename (path file_info))
                (user_id file_info)
                (extract_conversation (host_json_loads host) (JDict d))
                (extract_metadata (JDict d) (basename (path file_info))))
      ∧ has_char "/" (basename (path file_info)) = false
  | _ => process_file host file_info = None
  end.
Proof.
  unfold process_file, process_file_body.
  destruct (load_json_file host (path file_info)) as [[| | | | | |d]|e]; try done.
  simpl. split; [| apply basename_has_no_slash].
  by destruct (dict_lookup "timestamp" d).
Qed.

Lemma endswith_app (suffix x s : string) :
  endswith suffix s = true → endswith suffix (x ++ s) = true.
Proof.
  intros H. induction x as [|c x IH]; [done |].
  rewrite append_cons. cbn [endswith]. by rewrite IH, orb_true_r.
Qed.

Lemma endswith_path_join (suffix root name : string) :
  endswith suffix name = true → endswith suffix (path_join root name) = true.
Proof.
  intros H. unfold path_join.
  destruct (startswith "/" name); [done |].
  destruct (str_empty root || endswith "/" root).
  - by apply endswith_app.
  - apply endswith_app. by apply (endswith_app suffix (String "/" EmptyString)).
Qed.

Lemma elem_of_walked_json (host : Host) (dirs : list string) (f : FileTask) :
  f ∈ walked_json host dirs
  ↔ ∃ dir root names name,
      dir ∈ dirs ∧ os_path_exists host dir = true
      ∧ ((root, names) ∈ os_walk host dir) ∧ name ∈ names
      ∧ endswith ".json" name = true
      ∧ f = mkFileTask (path_join root name) (get_user_id_from_path dir).
Proof.
  unfold walked_json. rewrite list_elem_of_In, in_flat_map. split.
  - intros (dir & Hdir & Hf).
    destruct (os_path_exists host dir) eqn:Hex; [| done].
    apply in_flat_map in Hf as ([root names] & Hentry & Hf).
    apply in_flat_map in Hf as (name & Hname & Hf). simpl in *.
    destruct (endswith ".json" name) eqn:Hend; [| done].
    destruct Hf as [<- | []].
    exists dir, root, names, name. by rewrite !list_elem_of_In.
  - intros (dir & root & names & name & Hdir & Hex & Hentry & Hname & Hend & ->).
    exists dir. rewrite <- list_elem_of_In. split; [done |]. rewrite Hex.
    apply in_flat_map. exists (root, names). rewrite <- list_elem_of_In.
    split; [done |]. apply in_flat_map. exists name. rewrite <- list_elem_of_In.
    split; [done |]. simpl. rewrite Hend. by left.
Qed.

(** X13.  Every task discovery returns comes from a source directory
    that exists: its path is a file name ending in [.json] joined to
    the directory [os.walk] listed it in, so the path ends in [.json];
    its user id is the one of that source directory; and its path is
    not in the processor's set of processed files. *)
Theorem discovered_task_origin (self : LogProcessor) (max_files : option Z)
    (host : Host) (files : list FileTask) (f : FileTask) :
  get_unprocessed_files self max_files host = Ok files →
  f ∈ files →
  endswith ".json" (path f) = true
  ∧ (path f ∉ processed_files self)
  ∧ ∃ dir root names name,
      dir ∈ source_dirs self ∧ os_path_exists host dir = true
      ∧ ((root, names) ∈ os_walk host dir) ∧ name ∈ names
      ∧ endswith ".json" name = true
      ∧ path f = path_join root name
      ∧ user_id f = get_user_id_from_path dir.
Proof.
  intros Hfiles Hf.
  apply (get_unprocessed_files_sub _ _ _ _ _ Hfiles) in Hf.
  apply elem_of_candidates in Hf as [Hwalk Hnot].
  apply elem_of_walked_json in Hwalk
    as (dir & root & names & name & Hdir & Hex & Hentry & Hname & Hend & ->).
  simpl in *. split; [by apply endswith_path_join |]. split; [done |].
  exists dir, root, names, name. done.
Qed.

Lemma discovered_task_origin_witness :
  endswith ".json" "/logs/alice/chat-panel/b.json" = true
  ∧ "/logs/alice/chat-panel/b.json" ∉ processed_files (LogProcessor_init None demo_host fresh_state).
Proof.
  destruct (discovered_task_origin (LogProcessor_init None demo_host fresh_state)
              (Some 2) demo_host
              [mkFileTask "/logs/alice/chat-panel/b.json" "alice";
               mkFileTask "/logs/alice/chat-panel/c.json" "alice"]
              (mkFileTask "/logs/alice/chat-panel/b.json" "alice"))
    as (Hend & Hnot & _).
  - by vm_compute.
  - apply list_elem_of_here.
  - split; [exact Hend | exact Hnot].
Defined.

Lemma candidates_app (dirs1 dirs2 : list string) (done_set : gset string) (host : Host) :
  candidates (mkLogProcessor (dirs1 ++ dirs2) done_set) host
  = (candidates (mkLogProcessor dirs1 done_set) host
     ++ candidates (mkLogProcessor dirs2 done_set) host)%list.
Proof. unfold candidates. simpl. apply flat_map_app. Qed.

(** X14.  A source directory that does not exist is skipped: discovery
    returns what it returns without that directory, whatever the other
    directories, the limit and the processed set. *)
Theorem missing_source_dir_is_skipped (before after : list string) (dir : string)
    (done_set : gset string) (max_files : option Z) (host : Host) :
  os_path_exists host dir = false →
  candidates (mkLogProcessor (before ++ dir :: after) done_set) host
  = candidates (mkLogProcessor (before ++ after) done_set) host
  ∧ get_unprocessed_files (mkLogProcessor (before ++ dir :: after) done_set) max_files host
    = get_unprocessed_files (mkLogProcessor (before ++ after) done_set) max_files host.
Proof.
  intros Hex.
  assert (Hc : candidates (mkLogProcessor (before ++ dir :: after) done_set) host
               = candidates (mkLogProcessor (before ++ after) done_set) host).
  { rewrite !candidates_app. f_equal.
    unfold candidates. simpl. by rewrite Hex. }
  split; [exact Hc |]. unfold get_unprocessed_files. by rewrite Hc.
Qed.

Lemma missing_source_dir_is_skipped_witness :
  get_unprocessed_files (mkLogProcessor ([demo_dir] ++ "/nowhere" :: []) ∅) None demo_host
  = get_unprocessed_files (mkLogProcessor ([demo_dir] ++ []) ∅) None demo_host.
Proof.
  apply (missing_source_dir_is_skipped [demo_dir] [] "/nowhere" ∅ None demo_host).
  reflexivity.
Defined.

Lemma marked_nil (host : Host) (files : list FileTask) :
  (∀ f, f ∈ files → process_file host f = None) →
  marked host files = [] ∧ omap (process_file host) files = [].
Proof.
  induction files as [|f files IH]; intros H; [done |].
  rewrite marked_cons, omap_cons_case, (H f) by apply list_elem_of_here.
  apply IH. intros g Hg. apply H. by apply list_elem_of_further.
Qed.

(** A run in which no selected file gives a document returns the state
    it started from. *)
Lemma process_logs_no_documents (host : Host) (sink : Sink) (st : State) :
  (∀ f, f ∈ run_files host st → process_file host f = None) →
  process_logs host sink st = st.
Proof.
  intros Hnone. unfold process_logs. rewrite process_logs_body_state.
  unfold run_files in Hnone.
  destruct (get_unprocessed_files _ _ host) as [files|e]; [| done].
  destruct (marked_nil host files Hnone) as [-> ->]. simpl.
  destruct st. simpl. by rewrite app_nil_r.
Qed.

(** X15.  A run in which no selected file gives a document leaves the
    ledger file and the trace as they were: it appends nothing to the
    ledger and issues no index check, no index creation and no bulk
    write.  This covers a run that finds no file, a run whose discovery
    raises because a modification time cannot be read, and a run whose
    files all fail to load.  (The ping of [ESClient()] is not an event
    of the trace.) *)
Theorem run_without_documents_changes_nothing (host : Host) (sink : Sink) (st : State) :
  (∀ f, f ∈ run_files host st → process_file host f = None) →
  process_logs host sink st = st
  ∧ ledger_file (process_logs host sink st) = ledger_file st
  ∧ new_events st (process_logs host sink st) = [].
Proof.
  intros Hnone. rewrite (process_logs_no_documents host sink st Hnone).
  split; [done |]. split; [done |]. unfold new_events. by rewrite drop_all.
Qed.

Lemma run_without_documents_changes_nothing_witness :
  process_logs demo_host good_sink
    (mkState (Some "/logs/alice/chat-panel/a.json
") [])
  = mkState (Some "/logs/alice/chat-panel/a.json
") [].
Proof.
  apply (run_without_documents_changes_nothing demo_host good_sink).
  intros f Hf. vm_compute in Hf.
  apply elem_of_cons in Hf as [-> | Hf]; [reflexivity |].
  apply elem_of_cons in Hf as [-> | Hf]; [reflexivity |].
  by apply elem_of_nil in Hf.
Defined.

Lemma sort_by_key_same_key {A : Type} (t : Z) (l : list (Z * A)) :
  Forall (fun kf => fst kf = t) l → sort_by_key l = l.
Proof.
  induction 1 as [|x l Hx Hl IH]; [done |].
  change (sort_by_key (x :: l)) with (insert_by_key x (sort_by_key l)).
  rewrite IH. apply insert_by_key_le.
  eapply Forall_impl; [exact Hl |]. unfold key_le. intros y Hy. lia.
Qed.

Lemma filter_key_correct (host : Host) (t : Z) (keyed : list (Z * FileTask)) :
  Forall (fun kf => os_path_getmtime host (path (snd kf)) = Some (fst kf)) keyed →
  List.filter (fun kf => bool_decide (os_path_getmtime host (path (snd kf)) = Some t)) keyed
  = List.filter (fun kf => bool_decide (fst kf = t)) keyed.
Proof.
  induction 1 as [|x l Hx _ IH]; [done |]. simpl. rewrite IH, Hx.
  destruct (decide (fst x = t)) as [-> | Hne].
  - by rewrite !bool_decide_eq_true_2.
  - rewrite !bool_decide_eq_false_2; [done | done | congruence].
Qed.

(** X16.  The sort is stable: among the files with the same
    modification time, discovery without a limit returns them in the
    order the walk found them. *)
Theorem discovery_keeps_walk_order_on_ties (self : LogProcessor) (host : Host)
    (files : list FileTask) (t : Z) :
  get_unprocessed_files self None host = Ok files →
  with_mtime_eq host t files = with_mtime_eq host t (candidates self host).
Proof.
  unfold get_unprocessed_files, with_mtime_eq. intros H.
  destruct (with_mtime host (candidates self host)) as [keyed|e] eqn:Hk; [| done].
  simpl in H. simplify_eq.
  destruct (with_mtime_inv _ _ _ Hk) as [<- Hkeys].
  set (same := fun f : FileTask => bool_decide (os_path_getmtime host (path f) = Some t)).
  rewrite <- !(map_snd_filter same). f_equal.
  rewrite sort_by_key_filter. apply (sort_by_key_same_key t).
  unfold same. rewrite (filter_key_correct host t keyed Hkeys).
  apply Forall_forall. intros kf Hkf.
  apply list_elem_of_In, List.filter_In in Hkf as [_ Hkf].
  by apply bool_decide_eq_true in Hkf.
Qed.

Lemma discovery_keeps_walk_order_on_ties_witness :
  with_mtime_eq tie_host 20
    [mkFileTask "/logs/alice/chat-panel/a.json" "alice";
     mkFileTask "/logs/alice/chat-panel/n.json" "alice";
     mkFileTask "/logs/alice/chat-panel/m.json" "alice";
     mkFileTask "/logs/alice/chat-panel/z.json" "alice"]
  = with_mtime_eq tie_host 20
      (candidates (LogProcessor_init None tie_host fresh_state) tie_host)
  ∧ with_mtime_eq tie_host 20
      (candidates (LogProcessor_init None tie_host fresh_state) tie_host)
    = [mkFileTask "/logs/alice/chat-panel/n.json" "alice";
       mkFileTask "/logs/alice/chat-panel/m.json" "alice"].
Proof.
  split; [| by vm_compute].
  apply (discovery_keeps_walk_order_on_ties
           (LogProcessor_init None tie_host fresh_state) tie_host
           [mkFileTask "/logs/alice/chat-panel/a.json" "alice";
            mkFileTask "/logs/alice/chat-panel/n.json" "alice";
            mkFileTask "/logs/alice/chat-panel/m.json" "alice";
            mkFileTask "/logs/alice/chat-panel/z.json" "alice"] 20).
  by vm_compute.
Defined.

(** ** Runs *)

Lemma marked_all (host : Host) (files : list FileTask) :
  (∀ f, f ∈ files → is_Some (process_file host f)) →
  marked host files = map path files.
Proof.
  induction files as [|f files IH]; intros H; [done |].
  rewrite marked_cons. destruct (H f (list_elem_of_here _ _)) as [doc ->].
  simpl. f_equal. apply IH. intros g Hg. apply H. by apply list_elem_of_further.
Qed.

Lemma filter_none {A : Type} (keep : A → bool) (l : list A) :
  (∀ x, x ∈ l → keep x = false) → List.filter keep l = [].
Proof.
  intros H. rewrite <- (List.filter_false l). apply List.filter_ext_in.
  intros x Hx. apply H. by apply list_elem_of_In.
Qed.

(** X17.  After a run that selected every candidate (there were at most
    100) and got a document from each, all with clean paths and on a
    line-terminated ledger, the next run over the same tree selects
    nothing and changes nothing, whatever the sink. *)
Theorem second_run_is_a_no_op (host : Host) (sink later_sink : Sink) (st : State)
    (files : list FileTask) :
  line_terminated (ledger_file st) = true →
  get_unprocessed_files (LogProcessor_init None host st)
    (Some MAX_FILES_PER_BATCH) host = Ok files →
  (length (candidates (LogProcessor_init None host st) host) ≤ 100)%nat →
  (∀ f, f ∈ files → is_Some (process_file host f) ∧ clean_path (path f) = true) →
  run_files host (process_logs host sink st) = []
  ∧ process_logs host later_sink (process_logs host sink st) = process_logs host sink st.
Proof.
  intros Hterm Hfiles Hlen Hall.
  assert (Hmarked : marked host files = map path files).
  { apply marked_all. intros f Hf. by apply Hall. }
  assert (Hperm : files ≡ₚ candidates (LogProcessor_init None host st) host).
  { unfold get_unprocessed_files in Hfiles.
    destruct (with_mtime host (candidates _ host)) as [keyed|e] eqn:Hk; [| done].
    cbn [rbind] in Hfiles. injection Hfiles as <-.
    destruct (with_mtime_inv _ _ _ Hk) as [Hsnd _].
    rewrite take_ge.
    - by rewrite (sort_by_key_perm keyed), Hsnd.
    - rewrite length_map, (Permutation_length (sort_by_key_perm keyed)).
      rewrite <- (length_map snd), Hsnd. unfold MAX_FILES_PER_BATCH. lia. }
  assert (Hempty : run_files host (process_logs host sink st) = []).
  { unfold run_files, get_unprocessed_files.
    rewrite (candidates_later (LogProcessor_init None host st)
               (LogProcessor_init None host (process_logs host sink st))
               host (list_to_set (map path files))).
    - rewrite filter_none; [done |].
      intros f Hf. apply negb_false_iff, bool_decide_eq_true.
      apply elem_of_list_to_set, list_elem_of_fmap. exists f.
      split; [done |]. by rewrite Hperm.
    - done.
    - simpl. destruct (process_logs_trace host sink st) as (_ & -> & _).
      unfold run_files. rewrite Hfiles, Hmarked.
      apply get_processed_files_append_lines; [done |].
      apply Forall_fmap, Forall_forall. intros f Hf. by apply Hall. }
  split; [exact Hempty |].
  apply process_logs_no_documents.
  rewrite Hempty. intros f Hf. by apply elem_of_nil in Hf.
Qed.

Lemma second_run_is_a_no_op_witness :
  process_logs single_host dead_sink (process_logs single_host good_sink fresh_state)
  = process_logs single_host good_sink fresh_state.
Proof.
  apply (second_run_is_a_no_op single_host good_sink dead_sink fresh_state
           [mkFileTask "/logs/alice/chat-panel/a.json" "alice"]).
  - reflexivity.
  - by vm_compute.
  - apply Nat.leb_le. by vm_compute.
  - intros f Hf. apply list_elem_of_singleton in Hf as ->.
    split; [by vm_compute; eexists | by vm_compute].
Defined.

Lemma file_names_of_marked (host : Host) (files : list FileTask) :
  map file_name (omap (process_file host) files) = map basename (marked host files)
  ∧ length (marked host files) = length (omap (process_file host) files)
  ∧ (length (marked host files) ≤ length files)%nat.
Proof.
  induction files as [|f files (IH1 & IH2 & IH3)]; [done |].
  rewrite marked_cons, omap_cons_case.
  destruct (process_file host f) as [doc|] eqn:Hdoc; simpl.
  - assert (is_Some (process_file host f)) as Hsome by eauto.
    apply process_file_some in Hsome as [d Hd].
    destruct (process_file_object host f d Hd) as [ts Hts].
    rewrite Hts in Hdoc. injection Hdoc as <-. simpl.
    rewrite IH1, IH2. repeat split; lia.
  - repeat split; try done; lia.
Qed.

Lemma clean_path_no_break (p : string) :
  clean_path p = true → has_char LF p = false ∧ has_char CR p = false.
Proof.
  unfold clean_path. intros H.
  apply andb_prop in H as [H _]. apply andb_prop in H as [H _].
  apply andb_prop in H as [Hlf Hcr].
  by rewrite (proj1 (negb_true_iff _) Hlf), (proj1 (negb_true_iff _) Hcr).
Qed.

Lemma readlines_line (p : string) :
  clean_path p = true →
  readlines (p ++ String LF EmptyString) = [p ++ String LF EmptyString].
Proof.
  intros H. destruct (clean_path_no_break p H) as [Hlf Hcr].
  unfold readlines. rewrite universal_newlines_id by done.
  change (universal_newlines (String LF EmptyString)) with (String LF EmptyString).
  by apply split_lines_one.
Qed.

(** The text written for clean paths reads as one line per path. *)
Lemma readlines_lines_text (paths : list string) :
  Forall (fun p => clean_path p = true) paths →
  readlines (lines_text paths) = map (fun p => p ++ String LF EmptyString) paths.
Proof.
  induction 1 as [|p paths Hp _ IH]; [done |].
  cbn [lines_text map].
  replace (p ++ String LF (lines_text paths))
    with ((p ++ String LF EmptyString) ++ lines_text paths)
    by (by rewrite append_assoc, append_cons, append_empty_l).
  by rewrite readlines_app, readlines_line, IH.
Qed.

(** X18.  The documents [process_files] returns and the paths it
    appends to the ledger go together: as many appended paths as
    documents, in the same order, and the file name of each document is
    the last component of the path appended for it.  The text added to
    the ledger is each of these paths followed by a line feed; when the
    paths are clean it reads as one line per document (a path holding a
    line break takes several lines). *)
Theorem documents_match_ledger_appends (self : LogProcessor) (max_files : option Z)
    (host : Host) (st : State) (documents : list Document) :
  snd (process_files self max_files host st) = Ok documents →
  ∃ paths,
    ledger_file (fst (process_files self max_files host st))
    = match paths with
      | [] => ledger_file st
      | _ :: _ => Some (default EmptyString (ledger_file st) ++ lines_text paths)
      end
    ∧ new_events st (fst (process_files self max_files host st)) = map LedgerAppend paths
    ∧ map file_name documents = map basename paths
    ∧ length documents = length paths
    ∧ (Forall (fun p => clean_path p = true) paths →
       length (readlines (lines_text paths)) = length documents).
Proof.
  rewrite process_files_state. unfold new_events.
  destruct (get_unprocessed_files self max_files host) as [files|e]; [| done].
  simpl. intros [= <-]. exists (marked host files).
  destruct (file_names_of_marked host files) as (Hnames & Hlen & _).
  rewrite drop_app_length, append_lines_text.
  split; [done |]. split; [done |]. split; [done |]. split; [done |].
  intros Hclean. by rewrite readlines_lines_text, length_map.
Qed.

Lemma documents_match_ledger_appends_witness :
  ∃ paths,
    ledger_file (fst (process_files (LogProcessor_init None demo_host fresh_state)
                        None demo_host fresh_state))
    = match paths with
      | [] => None
      | _ :: _ => Some (EmptyString ++ lines_text paths)
      end
    ∧ length paths = 1%nat.
Proof.
  destruct (documents_match_ledger_appends (LogProcessor_init None demo_host fresh_state)
              None demo_host fresh_state
              (omap (process_file demo_host)
                 [mkFileTask "/logs/alice/chat-panel/a.json" "alice"]))
    as (paths & Hl & _ & _ & Hlen & _); [by vm_compute |].
  exists paths. split; [exact Hl |]. by rewrite <- Hlen.
Defined.

Lemma limit_length {A : Type} (n : Z) (l : list A) :
  0 < n → (length (limit (Some n) l) ≤ Z.to_nat n)%nat.
Proof.
  intros Hn. unfold limit. rewrite (proj2 (Z.ltb_lt 0 n) Hn), length_take. lia.
Qed.

(** X19.  With a positive limit discovery returns at most that many
    files; so one run works on at most 100 files, calls
    [mark_file_as_processed] at most 100 times (at most 100 ledger
    appends, one path each), and its bulk write, if any, carries at
    most 100 documents. *)
Theorem run_handles_at_most_one_batch (host : Host) (sink : Sink) (st : State) :
  (∀ (self : LogProcessor) (n : Z) (files : list FileTask),
      0 < n → get_unprocessed_files self (Some n) host = Ok files →
      (length files ≤ Z.to_nat n)%nat)
  ∧ (length (run_files host st) ≤ 100)%nat
  ∧ (length (marked host (run_files host st)) ≤ 100)%nat
  ∧ (length (List.filter is_ledger_append (new_events st (process_logs host sink st)))
     ≤ 100)%nat
  ∧ Forall (fun e => match e with
                     | Bulk actions => (length actions ≤ 100)%nat
                     | _ => True
                     end)
           (new_events st (process_logs host sink st)).
Proof.
  assert (Hgen : ∀ (self : LogProcessor) (n : Z) (files : list FileTask),
             0 < n → get_unprocessed_files self (Some n) host = Ok files →
             (length files ≤ Z.to_nat n)%nat).
  { intros self n files Hn. unfold get_unprocessed_files.
    destruct (with_mtime host (candidates self host)) as [keyed|e]; [| done].
    intros [= <-]. by apply limit_length. }
  assert (Hrun : (length (run_files host st) ≤ 100)%nat).
  { unfold run_files.
    destruct (get_unprocessed_files _ _ host) as [files|e] eqn:Hfiles; [| simpl; lia].
    apply (Hgen _ MAX_FILES_PER_BATCH files) in Hfiles; [| done].
    unfold MAX_FILES_PER_BATCH in Hfiles. lia. }
  destruct (file_names_of_marked host (run_files host st)) as (_ & Hlen & Hle).
  split; [exact Hgen |]. split; [exact Hrun |]. split; [lia |].
  destruct (process_logs_trace host sink st) as (sink_events & _ & He & Hkind & _).
  unfold new_events. rewrite He, drop_app_length. split.
  - rewrite filter_ledger_appends, length_map; [lia |].
    eapply Forall_impl; [exact Hkind |]. by intros ? [? _].
  - apply Forall_app. split.
    + apply Forall_fmap, Forall_forall. by intros p _.
    + eapply Forall_impl; [exact Hkind |]. intros [] [_ Hb]; try done.
      specialize (Hb _ eq_refl). apply (f_equal length) in Hb.
      rewrite length_map in Hb. lia.
Qed.

(** ** The sink adapter *)

Lemma create_index_result (sink : Sink) (name : string) (st : State) :
  snd (create_index_if_not_exists sink name st)
  = match es_indices_exists sink name with
    | Ok true => Ok true
    | Ok false =>
        match es_indices_create sink name with
        | Ok _ => Ok true
        | Raise ElasticsearchException => Ok false
        | Raise e => Raise e
        end
    | Raise ElasticsearchException => Ok false
    | Raise e => Raise e
    end.
Proof.
  unfold create_index_if_not_exists, ebind, except_es, rbind, elift, eret.
  rewrite record_event_state.
  destruct (es_indices_exists sink name) as [[|]|[]]; simpl; try done.
  by destruct (es_indices_create sink name) as [[]|[]].
Qed.

Lemma create_index_ensured (sink : Sink) (st : State) :
  index_ensured sink ↔ snd (create_index_if_not_exists sink get_index_name st) = Ok true.
Proof.
  rewrite create_index_result. unfold index_ensured.
  destruct (es_indices_exists sink get_index_name) as [[|]|[]];
    destruct (es_indices_create sink get_index_name) as [[]|[]];
    (split; [intros [H | [H1 H2]]; congruence | intros H; try done; tauto]).
Qed.

Lemma bulk_index_result (sink : Sink) (doc : Document) (documents : list Document)
    (st : State) :
  index_ensured sink →
  snd (bulk_index sink (doc :: documents) st)
  = match es_bulk sink (map (fun d => (get_index_name, d)) (doc :: documents)) with
    | Ok counts => Ok (fst counts)
    | Raise ElasticsearchException => Ok 0
    | Raise e => Raise e
    end.
Proof.
  intros Hens. apply (create_index_ensured sink st) in Hens.
  unfold bulk_index, ebind.
  destruct (create_index_if_not_exists sink get_index_name st) as [st1 r].
  simpl in Hens. subst r. rewrite record_event_state.
  unfold except_es, rbind, eret, elift.
  by destruct (es_bulk sink _) as [[s f]|[]].
Qed.

(** X20.  When the run has documents and the index exists or can be
    created, the count the run reports is the success count of the
    bulk write as the sink gives it, also when the sink rejected some
    documents; the run does not raise, and every file that gave a
    document is in the ledger all the same. *)
Theorem run_reports_sink_success_count (host : Host) (sink : Sink) (st : State)
    (accepted rejected : Z) :
  omap (process_file host) (run_files host st) ≠ [] →
  index_ensured sink →
  es_bulk sink (map (fun d => (get_index_name, d))
                    (omap (process_file host) (run_files host st)))
  = Ok (accepted, rejected) →
  snd (process_logs_body host sink st) = Ok (Some accepted)
  ∧ ledger_file (process_logs host sink st)
    = append_lines (ledger_file st) (marked host (run_files host st)).
Proof.
  intros Hdocs Hens Hbulk.
  split; [| by destruct (process_logs_trace host sink st) as (_ & -> & _)].
  rewrite process_logs_body_state. unfold run_files in *.
  destruct (get_unprocessed_files _ _ host) as [files|e]; [| done].
  cbn zeta. destruct (omap (process_file host) files) as [|doc docs] eqn:Hd; [done |].
  unfold ebind.
  match goal with |- context [bulk_index sink ?d ?s] =>
    pose proof (bulk_index_result sink doc docs s Hens) as Hres;
    destruct (bulk_index sink d s) as [st' r]
  end.
  simpl in Hres, Hbulk. subst r. by rewrite Hbulk.
Qed.

Lemma run_reports_sink_success_count_witness :
  snd (process_logs_body demo_host partial_sink fresh_state) = Ok (Some 0).
Proof.
  apply (run_reports_sink_success_count demo_host partial_sink fresh_state 0 1).
  - by vm_compute.
  - right. split; reflexivity.
  - reflexivity.
Defined.

(** X21.  No call of the sink adapter lets an [ElasticsearchException]
    out: whatever the server answers, [create_index_if_not_exists],
    [index_document], [bulk_index] and [search_by_user] return or raise
    something else. *)
Theorem sink_adapter_absorbs_es_errors (sink : Sink) (st : State) :
  (∀ name, snd (create_index_if_not_exists sink name st) ≠ Raise ElasticsearchException)
  ∧ (∀ document, snd (index_document sink document st) ≠ Raise ElasticsearchException)
  ∧ (∀ documents, snd (bulk_index sink documents st) ≠ Raise ElasticsearchException)
  ∧ (∀ user size, snd (search_by_user sink user size st) ≠ Raise ElasticsearchException).
Proof.
  assert (Hcreate : ∀ name st0,
             snd (create_index_if_not_exists sink name st0) ≠ Raise ElasticsearchException).
  { intros name st0. rewrite create_index_result.
    destruct (es_indices_exists sink name) as [[|]|[]]; try done.
    by destruct (es_indices_create sink name) as [[]|[]]. }
  split; [intros name; apply Hcreate |]. split; [| split].
  - intros document. unfold index_document, ebind.
    specialize (Hcreate get_index_name st).
    destruct (create_index_if_not_exists sink get_index_name st) as [st1 [[|]|e]];
      simpl in *; unfold record_event, emodify, except_es, rbind, eret, elift;
      simpl; try done; try (intros [= ->]; by destruct Hcreate).
    by destruct (es_index sink get_index_name document) as [id|[]].
  - intros [|doc documents]; [done |]. unfold bulk_index, ebind.
    specialize (Hcreate get_index_name st).
    destruct (create_index_if_not_exists sink get_index_name st) as [st1 [[|]|e]];
      simpl in *; unfold record_event, emodify, except_es, rbind, eret, elift;
      simpl; try done; try (intros [= ->]; by destruct Hcreate).
    by destruct (es_bulk sink _) as [[s f]|[]].
  - intros user size. unfold search_by_user, ebind. rewrite record_event_state.
    unfold except_es, eret, elift.
    by destruct (es_search sink search_index user size) as [hits|[]].
Qed.

(** X22.  [bulk_index] submits a bulk write if and only if it is given
    documents and the index exists or is created; it asks for the
    creation of the index if and only if it is given documents and the
    server answers that the index does not exist.  Given no document it
    returns 0 and does nothing. *)
Theorem bulk_write_needs_ensured_index (sink : Sink) (documents : list Document)
    (st : State) :
  (existsb is_bulk (new_events st (fst (bulk_index sink documents st))) = true
   ↔ documents ≠ [] ∧ index_ensured sink)
  ∧ (existsb is_indices_create (new_events st (fst (bulk_index sink documents st))) = true
     ↔ documents ≠ [] ∧ es_indices_exists sink get_index_name = Ok false)
  ∧ (documents = [] → bulk_index sink documents st = (st, Ok 0)).
Proof.
  destruct documents as [|doc documents].
  { unfold new_events. simpl. rewrite drop_all. simpl. intuition congruence. }
  unfold index_ensured, new_events, bulk_index, create_index_if_not_exists.
  unfold ebind, except_es, rbind, elift, eret. rewrite record_event_state.
  destruct (es_indices_exists sink get_index_name) as [[|]|[]] eqn:Hex; simpl;
    try (rewrite <- ?app_assoc, drop_app_length; simpl; intuition congruence);
    try (destruct (es_bulk sink _) as [[s f]|[]]; simpl;
         rewrite <- ?app_assoc, drop_app_length; simpl; intuition congruence).
  destruct (es_indices_create sink get_index_name) as [[]|[]] eqn:Hcr; simpl;
    try (rewrite <- ?app_assoc, drop_app_length; simpl; intuition congruence);
    try (destruct (es_bulk sink _) as [[s f]|[]]; simpl;
         rewrite <- ?app_assoc, drop_app_length; simpl; intuition congruence).
Qed.

(** X23.  The scheduler interval: [PROCESS_INTERVAL // 60 or 1] is the
    number of whole minutes in the interval, seconds beyond them
    dropped, and one minute for every interval under a minute; for the
    configured 3000 seconds it is 50 minutes.  A negative interval
    gives a negative number of minutes. *)
Theorem interval_minutes_rounds_down (seconds : Z) :
  (0 <= seconds < 60 → interval_minutes seconds = 1)
  ∧ (60 <= seconds →
     1 <= interval_minutes seconds
     ∧ interval_minutes seconds * 60 <= seconds < interval_minutes seconds * 60 + 60)
  ∧ (seconds < 0 → interval_minutes seconds < 0)
  ∧ interval_minutes PROCESS_INTERVAL = 50.
Proof.
  unfold interval_minutes. cbn zeta.
  split; [| split; [| split; [| reflexivity]]].
  - intros H. rewrite Z.div_small by lia. reflexivity.
  - intros H. destruct (Z.eqb_spec (seconds / 60) 0) as [Hz | Hnz];
      Z.div_mod_to_equations; lia.
  - intros H. destruct (Z.eqb_spec (seconds / 60) 0) as [Hz | Hnz];
      Z.div_mod_to_equations; lia.
Qed.

(** ** Edge cases of extraction *)

(** X24.  Called on a value that is [null], a boolean or a number
    instead of an object, conversation extraction returns no turn and
    metadata extraction returns an empty map, without the three
    filename keys: the first membership test raises and the handler
    returns what was built, which is nothing. *)
Theorem scalar_record_gives_nothing (json_loads : string → option json)
    (log_data : json) (filename : string) :
  is_scalar log_data = true →
  extract_conversation json_loads log_data = []
  ∧ extract_metadata log_data filename = ∅.
Proof. by destruct log_data. Qed.

Lemma scalar_record_gives_nothing_witness :
  extract_conversation demo_loads JNull = []
  ∧ extract_metadata JNull "a_b_c_d.json" = ∅.
Proof. apply (scalar_record_gives_nothing demo_loads JNull "a_b_c_d.json" eq_refl). Defined.

Lemma add_chunks_app (acc : string) (l1 l2 : list json) :
  add_chunks acc (l1 ++ l2) = rbind (add_chunks acc l1) (fun a => add_chunks a l2).
Proof.
  revert acc. induction l1 as [|chunk l1 IH]; intros acc; [done |].
  cbn [app add_chunks]. destruct (add_chunk acc chunk) as [acc'|e]; [| done].
  simpl. apply IH.
Qed.

Lemma add_chunk_not_text (acc : string) (v : json) :
  truthy v = true → (∀ s, v ≠ JStr s) →
  add_chunk acc (chunk_of v) = Raise TypeError.
Proof.
  intros Htruthy Hv. unfold add_chunk, chunk_of. simpl.
  unfold add_choice. simpl. rewrite Htruthy. simpl.
  destruct v; try done. by destruct (Hv s).
Qed.

(** X25.  A streamed response is all or nothing: when one chunk holds
    a [delta.content] that is truthy but not a string, the loop raises
    and the response gives no turn at all, also when the chunks before
    it had text; the conversation is then the request turns alone. *)
Theorem broken_chunk_loses_streamed_reply (json_loads : string → option json)
    (log_data : json) (texts : list string) (v : json) (after : list json) :
  truthy v = true →
  (∀ s, v ≠ JStr s) →
  response_content log_data = Some (JList (map chunk texts ++ chunk_of v :: after)) →
  add_chunks "" (map chunk texts ++ chunk_of v :: after) = Raise TypeError
  ∧ response_block json_loads log_data [] = ([], Raise TypeError)
  ∧ extract_conversation json_loads log_data
    = fst (request_block json_loads log_data []).
Proof.
  intros Htruthy Hv Hc.
  assert (Hraise : add_chunks "" (map chunk texts ++ chunk_of v :: after)
                   = Raise TypeError).
  { rewrite add_chunks_app, add_chunks_texts. cbn [rbind add_chunks].
    by rewrite add_chunk_not_text. }
  assert (Hblock : response_block json_loads log_data [] = ([], Raise TypeError)).
  { by rewrite (response_block_chunks _ _ _ Hc), Hraise. }
  split; [exact Hraise |]. split; [exact Hblock |].
  rewrite extract_conversation_blocks, Hblock.
  destruct (snd (request_block json_loads log_data [])); by rewrite app_nil_r.
Qed.

Lemma broken_chunk_loses_streamed_reply_witness :
  extract_conversation demo_loads
    (record_of user_request
       (JDict [("content", JList (map chunk ["Hel"] ++ chunk_of (JInt 5) :: []))]))
  = fst (request_block demo_loads
           (record_of user_request
              (JDict [("content", JList (map chunk ["Hel"] ++ chunk_of (JInt 5) :: []))]))
           []).
Proof.
  apply (broken_chunk_loses_streamed_reply demo_loads
           (record_of user_request
              (JDict [("content", JList (map chunk ["Hel"] ++ chunk_of (JInt 5) :: []))]))
           ["Hel"] (JInt 5) []); [reflexivity | discriminate | reflexivity].
Defined.

(** X26.  When the request block returns, a response that is a list of
    chunks of the streaming shape, whatever their number, gives the
    request turns followed by one assistant turn holding the texts
    joined in list order, and by nothing when the joined text is
    empty. *)
Theorem streamed_reply_is_joined (json_loads : string → option json)
    (log_data : json) (texts : list string) :
  response_content log_data = Some (JList (map chunk texts)) →
  snd (request_block json_loads log_data []) = Ok tt →
  extract_conversation json_loads log_data
  = (fst (request_block json_loads log_data [])
     ++ if str_empty (String.concat "" texts) then []
        else [assistant_turn (JStr (String.concat "" texts))
                (record_timestamp log_data)])%list.
Proof.
  intros Hc Hreq.
  apply (extract_conversation_chunks json_loads log_data (map chunk texts)); try done.
  by rewrite add_chunks_texts.
Qed.

Lemma streamed_reply_is_joined_witness :
  extract_conversation demo_loads (record_of user_request streamed_response)
  = (fst (request_block demo_loads (record_of user_request streamed_response) [])
     ++ [assistant_turn (JStr "Hello") (JStr "t0")])%list.
Proof.
  apply (streamed_reply_is_joined demo_loads (record_of user_request streamed_response)
           ["Hel"; "lo"]); reflexivity.
Defined.

(** ** Files that were marked but not indexed *)

(** X27.  On a ledger that is absent, empty or ends with a line feed:
    when the server cannot be reached (the existence check of the index
    raises an Elasticsearch error), the run submits no bulk write, yet
    every file that gave a document is in the ledger, and if its path
    is clean no later run selects it, whatever is appended to the
    ledger in between and whatever the tree of that run: its document
    is not sent again. *)
Theorem unindexed_files_are_never_retried (host : Host) (sink : Sink)
    (st : State) (f : FileTask) :
  es_indices_exists sink get_index_name = Raise ElasticsearchException →
  line_terminated (ledger_file st) = true →
  f ∈ run_files host st →
  is_Some (process_file host f) →
  clean_path (path f) = true →
  existsb is_bulk (new_events st (process_logs host sink st)) = false
  ∧ path f ∈ get_processed_files (ledger_file (process_logs host sink st))
  ∧ (∀ (later_host : Host) (later : list string) (trace : list event),
       never_selected later_host
         (mkState (append_lines (ledger_file (process_logs host sink st)) later) trace)
         (path f)).
Proof.
  intros Hdown Hterm Hf Hdoc Hclean.
  assert (Hrec : ∀ later,
             recorded_in (append_lines (ledger_file (process_logs host sink st)) later)
               (path f)).
  { intros later.
    destruct (process_logs_trace host sink st) as (_ & -> & _).
    assert (path f ∈ marked host (run_files host st)) as Hm
      by (apply elem_of_marked; eauto).
    apply list_elem_of_split in Hm as (xs & ys & ->).
    exists (append_lines (ledger_file st) xs), (ys ++ later)%list.
    split; [by apply line_terminated_append_lines |].
    by rewrite !append_lines_app. }
  split; [| split].
  - unfold process_logs, new_events. rewrite process_logs_body_state.
    destruct (get_unprocessed_files _ _ host) as [files|e]; cbn zeta.
    + destruct (omap (process_file host) files) as [|doc docs].
      * simpl. rewrite drop_app_length.
        induction (marked host files) as [|p ps IH]; [done | exact IH].
      * unfold ebind, bulk_index, create_index_if_not_exists, ebind.
        rewrite record_event_state, Hdown. simpl.
        rewrite <- app_assoc, drop_app_length, existsb_app. simpl. rewrite orb_false_r.
        induction (marked host files) as [|p ps IH]; [done | exact IH].
    + simpl. by rewrite drop_all.
  - apply recorded_in_processed; [done |]. exact (Hrec []).
  - intros later_host later trace.
    apply processed_never_selected, recorded_in_processed; [done |]. apply Hrec.
Qed.

Lemma unindexed_files_are_never_retried_witness :
  never_selected demo_host
    (mkState (append_lines (ledger_file (process_logs demo_host dead_sink fresh_state))
                ["/logs/alice/chat-panel/zz.json"]) [])
    "/logs/alice/chat-panel/a.json".
Proof.
  apply (unindexed_files_are_never_retried demo_host dead_sink fresh_state
           (mkFileTask "/logs/alice/chat-panel/a.json" "alice")).
  - reflexivity.
  - reflexivity.
  - vm_compute. apply list_elem_of_further, list_elem_of_further, list_elem_of_here.
  - vm_compute. by eexists.
  - by vm_compute.
Defined.


